(** * Ansible modules for OpenStack networking-sfc: a shallow embedding

    The four modules [os_sfc_flow_classifier], [os_sfc_port_pair],
    [os_sfc_port_pair_group] and [os_sfc_port_chain] are transcribed function
    by function.  Python values are a small dynamic value type, Python
    control effects ([module.exit_json], [module.fail_json], uncaught
    exceptions) are the constructors of a result type, and the remote store
    (the [cloud] object of the SDK) is a record of functions.  The mutating
    calls of one invocation are logged in a trace.  Helper functions keep
    their names; a [cloud] argument they never use is dropped. *)

From stdpp Require Import gmap strings list fin_maps.

Set Warnings "-register-all,-clear-no-such-hyp".

(** ** Python values *)

(** [None], integers, strings, lists and dictionaries with string keys.
    Python booleans compare equal to the integers 0 and 1 and are not given a
    constructor of their own.  Equality of [value] is Python's [==]:
    lists are compared in order, dictionaries by their key/value mapping. *)
Inductive value :=
| VNone
| VInt (z : Z)
| VStr (s : string)
| VList (l : list value)
| VDict (d : gmap string value).

Fixpoint value_eq_dec (x y : value) {struct x} : Decision (x = y).
Proof.
  refine (match x, y with
          | VNone, VNone => left _
          | VInt a, VInt b => cast_if (decide (a = b))
          | VStr a, VStr b => cast_if (decide (a = b))
          | VList a, VList b => cast_if (@list_eq_dec _ value_eq_dec a b)
          | VDict a, VDict b => cast_if (@gmap_eq_dec _ _ _ _ value_eq_dec a b)
          | _, _ => right _
          end); congruence.
Defined.

#[export] Instance value_eqdec : EqDecision value := value_eq_dec.

(** [x is None] *)
Definition is_none (v : value) : bool :=
  match v with VNone => true | _ => false end.

(** Truth value of [v] in a condition ([if v], [not v]). *)
Definition truthy (v : value) : bool :=
  match v with
  | VNone => false
  | VInt z => negb (Z.eqb z 0)
  | VStr s => negb (bool_decide (s = EmptyString))
  | VList l => negb (bool_decide (l = []))
  | VDict d => negb (bool_decide (d = ∅))
  end.

(** [a != b] *)
Definition py_ne (a b : value) : bool := negb (bool_decide (a = b)).

(** Lists and dictionaries are unhashable. *)
Definition hashable (v : value) : bool :=
  match v with VList _ | VDict _ => false | _ => true end.

Fixpoint chars (s : string) : list value :=
  match s with
  | EmptyString => []
  | String a s' => VStr (String a EmptyString) :: chars s'
  end.

(** ** Control effects *)

Inductive exc :=
| NameError (name : string)
| AttributeError (attr : string)
| TypeError (what : string)
| KeyError (key : string)
| OpenStackCloudException (msg : string).

(** A failure message: a literal, or a [%s] template with its argument
    (kept unformatted). *)
Inductive message :=
| Msg (s : string)
| Fmt (template : string) (arg : value).

(** The result of running a piece of module code: a value, or one of the
    ways control leaves it.  [exit_json] and [fail_json] end the process
    (SystemExit), so nothing after them runs and no [except] clause of the
    modules catches them. *)
Inductive res (A : Type) :=
| Ret (a : A)
| ExitJson (changed : bool) (returned : gmap string value)
| FailJson (msg : message)
| Raise (e : exc).
Arguments Ret {A} a.
Arguments ExitJson {A} changed returned.
Arguments FailJson {A} msg.
Arguments Raise {A} e.

Definition res_bind {A B} (m : res A) (k : A → res B) : res B :=
  match m with
  | Ret a => k a
  | ExitJson c r => ExitJson c r
  | FailJson msg => FailJson msg
  | Raise e => Raise e
  end.

Notation "'do' x <- m ; k" := (res_bind m (fun x => k))
  (at level 10, x name, m at level 100, k at level 200, only parsing).

(** A loop body either returns from the enclosing function or goes on to the
    next iteration with the loop-carried variables. *)
Inductive flow (R S : Type) :=
| Return (r : R)
| Next (s : S).
Arguments Return {R S} r.
Arguments Next {R S} s.

(** [for x in xs: body] *)
Fixpoint for_in {X R S} (xs : list X) (s : S) (body : X → S → res (flow R S))
  : res (flow R S) :=
  match xs with
  | [] => Ret (Next s)
  | x :: xs' =>
      do f <- body x s;
      match f with
      | Return r => Ret (Return r)
      | Next s' => for_in xs' s' body
      end
  end.

(** [obj[key]] on a dictionary. *)
Definition getitem (obj : gmap string value) (key : string) : res value :=
  match obj !! key with
  | Some v => Ret v
  | None => Raise (KeyError key)
  end.

(** [v[key]] on an arbitrary value that is expected to be a dictionary. *)
Definition subscript (v : option (gmap string value)) (key : string) : res value :=
  match v with
  | Some obj => getitem obj key
  | None => Raise (TypeError "'NoneType' object is not subscriptable")
  end.

(** [v.get] : the dictionary behind [v], when it has one. *)
Definition attr_get (v : value) : res (gmap string value) :=
  match v with
  | VDict d => Ret d
  | _ => Raise (AttributeError "get")
  end.

(** Iteration over a value. Dictionaries yield their keys. *)
Definition py_iter (v : value) : res (list value) :=
  match v with
  | VList l => Ret l
  | VStr s => Ret (chars s)
  | VDict d => Ret (VStr <$> (map_to_list d).*1)
  | _ => Raise (TypeError "object is not iterable")
  end.

(** [set(v)], as the list of its elements. *)
Definition py_set (v : value) : res (list value) :=
  do l <- py_iter v;
  if forallb hashable l then Ret l else Raise (TypeError "unhashable type").

(** [set(...) != set(...)] on the element lists. *)
Definition set_ne (a b : list value) : bool :=
  negb (forallb (λ x, bool_decide (x ∈ b)) a && forallb (λ x, bool_decide (x ∈ a)) b).

(** ** The Ansible module object *)

Inductive target_state := present | absent.

#[export] Instance target_state_eqdec : EqDecision target_state.
Proof. solve_decision. Defined.

(** [params] holds the declared arguments other than [state]; AnsibleModule
    fills every declared argument, an unspecified one with [None].  [state]
    is validated against its two choices. *)
Record ansible_module := {
  params : gmap string value;
  state : target_state;
  check_mode : bool;
}.

(** [module.params[key]] *)
Definition param (module : ansible_module) (key : string) : value :=
  default VNone (params module !! key).

(** [module.<attr>] for a dictionary-valued attribute: only [params] exists. *)
Definition module_attr (module : ansible_module) (attr : string)
  : res (gmap string value) :=
  if bool_decide (attr = "params") then Ret (params module)
  else Raise (AttributeError attr).

Definition fail_json {A} (msg : message) : res A := FailJson msg.
Definition exit_json (changed : bool) (returned : gmap string value) : res unit :=
  ExitJson changed returned.

(** ** The remote store *)

(** The four SFC resource kinds, one per module, and the kinds that can be
    looked up: those and Neutron ports. *)
Inductive sfc_kind := FlowClassifier | PortPair | PortPairGroup | PortChain.

Inductive rkind := Port | Sfc (k : sfc_kind).

#[export] Instance sfc_kind_eqdec : EqDecision sfc_kind.
Proof. solve_decision. Defined.

#[export] Instance rkind_eqdec : EqDecision rkind.
Proof. solve_decision. Defined.

(** The operations of the SDK's cloud object, one family per resource kind.
    [inl msg] stands for a raised [OpenStackCloudException]. *)
Record cloud := {
  cloud_get : rkind → value → string + option (gmap string value);
  cloud_create : sfc_kind → gmap string value → string + gmap string value;
  cloud_update : sfc_kind → value → gmap string value → string + gmap string value;
  cloud_delete : sfc_kind → value → string + unit;
}.

(** A mutating call issued to the remote store. *)
Inductive call :=
| Create (k : sfc_kind) (kw : gmap string value)
| Update (k : sfc_kind) (id : value) (kw : gmap string value)
| Delete (k : sfc_kind) (id : value).

Definition of_cloud {A} (r : string + A) : res A :=
  match r with
  | inl msg => Raise (OpenStackCloudException msg)
  | inr a => Ret a
  end.

Definition get_port (c : cloud) (name_or_id : value) := of_cloud (cloud_get c Port name_or_id).
Definition get_sfc_flow_classifier (c : cloud) (name_or_id : value) :=
  of_cloud (cloud_get c (Sfc FlowClassifier) name_or_id).
Definition get_sfc_port_pair (c : cloud) (name_or_id : value) :=
  of_cloud (cloud_get c (Sfc PortPair) name_or_id).
Definition get_sfc_port_pair_group (c : cloud) (name_or_id : value) :=
  of_cloud (cloud_get c (Sfc PortPairGroup) name_or_id).
Definition get_sfc_port_chain (c : cloud) (name_or_id : value) :=
  of_cloud (cloud_get c (Sfc PortChain) name_or_id).

(** Code that may issue mutating calls threads the trace of calls issued so
    far. *)
Definition M (A : Type) := list call → res A * list call.

Definition M_bind {A B} (m : M A) (k : A → M B) : M B :=
  λ t, match m t with
       | (Ret a, t') => k a t'
       | (ExitJson c r, t') => (ExitJson c r, t')
       | (FailJson msg, t') => (FailJson msg, t')
       | (Raise e, t') => (Raise e, t')
       end.

Notation "'doM' x <- m ; k" := (M_bind m (fun x => k))
  (at level 10, x name, m at level 100, k at level 200, only parsing).

(** Read-only code leaves the trace alone. *)
Definition lift {A} (r : res A) : M A := λ t, (r, t).

(** A mutating call is logged when it is issued, whether or not it raises. *)
Definition issue {A} (c : call) (r : string + A) : M A :=
  λ t, (of_cloud r, t ++ [c]).

Definition create_sfc (c : cloud) (k : sfc_kind) (kw : gmap string value) :=
  issue (Create k kw) (cloud_create c k kw).
Definition update_sfc (c : cloud) (k : sfc_kind) (id : value) (kw : gmap string value) :=
  issue (Update k id kw) (cloud_update c k id kw).
Definition delete_sfc (c : cloud) (k : sfc_kind) (id : value) :=
  issue (Delete k id) (cloud_delete c k id).

Definition create_sfc_flow_classifier (c : cloud) := create_sfc c FlowClassifier.
Definition update_sfc_flow_classifier (c : cloud) := update_sfc c FlowClassifier.
Definition delete_sfc_flow_classifier (c : cloud) := delete_sfc c FlowClassifier.
Definition create_sfc_port_pair (c : cloud) := create_sfc c PortPair.
Definition update_sfc_port_pair (c : cloud) := update_sfc c PortPair.
Definition delete_sfc_port_pair (c : cloud) := delete_sfc c PortPair.
Definition create_sfc_port_pair_group (c : cloud) := create_sfc c PortPairGroup.
Definition update_sfc_port_pair_group (c : cloud) := update_sfc c PortPairGroup.
Definition delete_sfc_port_pair_group (c : cloud) := delete_sfc c PortPairGroup.
Definition create_sfc_port_chain (c : cloud) := create_sfc c PortChain.
Definition update_sfc_port_chain (c : cloud) := update_sfc c PortChain.
Definition delete_sfc_port_chain (c : cloud) := delete_sfc c PortChain.

(** [try: body  except shade.OpenStackCloudException as e:
    module.fail_json(msg=str(e))] *)
Definition try_except {A} (body : M A) : M A :=
  λ t, match body t with
       | (Raise (OpenStackCloudException msg), t') => (FailJson (Msg msg), t')
       | r => r
       end.

(** [not obj] for the result of a lookup: [None] and the empty dictionary are
    false. *)
Definition as_truthy (o : option (gmap string value)) : option (gmap string value) :=
  match o with
  | Some obj => if bool_decide (obj = ∅) then None else Some obj
  | None => None
  end.

Arguments as_truthy : simpl never.

(** [if name: obj = get(name)], with [obj = None] before it. *)
Definition lookup_by_name (get : value → res (option (gmap string value)))
    (name : value) : res (option (gmap string value)) :=
  if truthy name then get name else Ret None.

(** [for optional_param in optional_parameters:
       if module.params[optional_param] is not None:
         kwargs[optional_param] = module.params[optional_param]] *)
Definition set_optional (module : ansible_module) (optional_parameters : list string)
    (kwargs : gmap string value) : gmap string value :=
  foldl (λ kw optional_param,
           if is_none (param module optional_param) then kw
           else <[optional_param := param module optional_param]> kw)
        kwargs optional_parameters.

Arguments set_optional : simpl never.
Arguments lookup_by_name : simpl never.
Arguments getitem : simpl never.

(** A loop that ran to its end hands its variables to the code after it; a
    [return] inside it is the function's result. *)
Definition after_loop {R S} (loop : res (flow R S)) (k : S → res R) : res R :=
  do f <- loop;
  match f with
  | Return r => Ret r
  | Next s => k s
  end.

(** [if cond: fail_json(msg)] *)
Definition fail_if {A} (cond : bool) (msg : message) (k : res A) : res A :=
  if cond then fail_json msg else k.

(** ** os_sfc_flow_classifier.py *)
Module os_sfc_flow_classifier.

Definition compare_simple : list string :=
  ["ethertype"; "protocol"; "source_port_range_min"; "source_port_range_max";
   "destination_port_range_min"; "destination_port_range_max";
   "source_ip_prefix"; "destination_ip_prefix";
   "logical_source_port"; "logical_destination_port"].

Definition compare_dict : list string := ["l7_parameters"].

Definition _needs_update (module : ansible_module) (fc ports : gmap string value)
  : res bool :=
  after_loop
    (for_in compare_simple tt (λ key _,
       do cur <- getitem fc key;
       let value := default cur (ports !! key) in
       if negb (is_none (param module key)) && py_ne (param module key) value
       then Ret (Return true) else Ret (Next tt)))
    (λ _,
  after_loop
    (for_in compare_dict tt (λ key _,
       if is_none (param module key) then Ret (Next tt)
       else
         do cur <- getitem fc key;
         if py_ne (param module key) cur then Ret (Return true) else Ret (Next tt)))
    (λ _, Ret false)).

Definition _system_state_change (module : ansible_module)
    (fc : option (gmap string value)) (ports : gmap string value) : res bool :=
  if bool_decide (state module = present) then
    match as_truthy fc with
    | None => Ret true
    | Some fc => _needs_update module fc ports
    end
  else if bool_decide (state module = absent) && bool_decide (is_Some (as_truthy fc))
  then Ret true
  else Ret false.

Definition optional_parameters : list string :=
  ["name"; "ethertype"; "protocol"; "source_port_range_min"; "source_port_range_max";
   "destination_port_range_min"; "destination_port_range_max";
   "source_ip_prefix"; "destination_ip_prefix"; "l7_parameters"].

(** [if key in ports: kwargs[key] = ports[key]] *)
Definition copy_if_in (key : string) (ports kwargs : gmap string value)
  : gmap string value :=
  match ports !! key with
  | Some v => <[key := v]> kwargs
  | None => kwargs
  end.

Definition _compose_flow_classifier_args (module : ansible_module)
    (ports : gmap string value) : gmap string value :=
  let fc_kwargs := set_optional module optional_parameters ∅ in
  let fc_kwargs := copy_if_in "logical_source_port" ports fc_kwargs in
  let fc_kwargs := copy_if_in "logical_destination_port" ports fc_kwargs in
  fc_kwargs.

(** One of the two lookups of [_ports_get_ids]. *)
Definition resolve_port (module : ansible_module) (cloud : cloud) (fail_on_error : bool)
    (key : string) (not_found : string) (ports_ids : gmap string value)
  : res (gmap string value) :=
  let logical_port := param module key in
  if is_none logical_port then Ret ports_ids
  else
    do port <- get_port cloud logical_port;
    match port with
    | None => fail_if fail_on_error (Msg not_found) (Ret ports_ids)
    | Some port => do i <- getitem port "id"; Ret (<[key := i]> ports_ids)
    end.

Definition _ports_get_ids (module : ansible_module) (cloud : cloud)
    (fail_on_error : bool) : res (gmap string value) :=
  let ports_ids := ∅ in
  do ports_ids <- resolve_port module cloud fail_on_error "logical_source_port"
                    "Specified logical source port was not found." ports_ids;
  do ports_ids <- resolve_port module cloud fail_on_error "logical_destination_port"
                    "Specified logical destination port was not found." ports_ids;
  Ret ports_ids.

Definition main (module : ansible_module) (cloud : cloud) : res unit * list call :=
  try_except (
    let name := param module "name" in
    doM fc <- lift (lookup_by_name (get_sfc_flow_classifier cloud) name);
    doM _ <- (if check_mode module then
                doM ports <- lift (_ports_get_ids module cloud false);
                doM changed <- lift (_system_state_change module fc ports);
                lift (exit_json changed ∅)
              else lift (Ret tt));
    let changed := false in
    doM _ <- (if bool_decide (state module = present) then
                (* fail_on_error is left at its default, False *)
                doM ports <- lift (_ports_get_ids module cloud false);
                doM r <- match as_truthy fc with
                         | None =>
                             let fc_kwargs := _compose_flow_classifier_args module ports in
                             doM fc <- create_sfc_flow_classifier cloud fc_kwargs;
                             lift (Ret (fc, true))
                         | Some fc =>
                             doM upd <- lift (_needs_update module fc ports);
                             if upd : bool then
                               let fc_kwargs := _compose_flow_classifier_args module ports in
                               doM i <- lift (getitem fc "id");
                               doM fc <- update_sfc_flow_classifier cloud i fc_kwargs;
                               lift (Ret (fc, true))
                             else lift (Ret (fc, changed))
                         end;
                doM i <- lift (getitem r.1 "id");
                lift (exit_json r.2 {[ "id" := i; "flow_classifier" := VDict r.1 ]})
              else lift (Ret tt));
    doM _ <- (if bool_decide (state module = absent) then
                doM changed <- match as_truthy fc with
                               | Some fc =>
                                   doM i <- lift (getitem fc "id");
                                   doM _ <- delete_sfc_flow_classifier cloud i;
                                   lift (Ret true)
                               | None => lift (Ret changed)
                               end;
                lift (exit_json changed ∅)
              else lift (Ret tt));
    lift (Ret tt)) [].

Arguments _needs_update : simpl never.
Arguments _system_state_change : simpl never.
Arguments _compose_flow_classifier_args : simpl never.
Arguments _ports_get_ids : simpl never.

End os_sfc_flow_classifier.

(** ** os_sfc_port_pair.py *)
Module os_sfc_port_pair.

Definition compare_simple : list string := ["ingress"; "egress"].
Definition compare_dict : list string := ["service_function_parameters"].

Definition _needs_update (module : ansible_module) (pp ports : gmap string value)
  : res bool :=
  after_loop
    (for_in compare_simple tt (λ key _,
       do cur <- getitem pp key;
       let value := default cur (ports !! key) in
       if negb (is_none (param module key)) && py_ne (param module key) value
       then Ret (Return true) else Ret (Next tt)))
    (λ _,
  after_loop
    (for_in compare_dict tt (λ key _,
       if is_none (param module key) then Ret (Next tt)
       else
         do cur <- getitem pp key;
         if py_ne (param module key) cur then Ret (Return true) else Ret (Next tt)))
    (λ _, Ret false)).

Definition _system_state_change (module : ansible_module)
    (pp : option (gmap string value)) (ports : gmap string value) : res bool :=
  if bool_decide (state module = present) then
    match as_truthy pp with
    | None => Ret true
    | Some pp => _needs_update module pp ports
    end
  else if bool_decide (state module = absent) && bool_decide (is_Some (as_truthy pp))
  then Ret true
  else Ret false.

Definition optional_parameters : list string :=
  ["name"; "ingress"; "egress"; "service_function_parameters"].

Definition _compose_port_pair_args (module : ansible_module) : gmap string value :=
  set_optional module optional_parameters ∅.

(** [if not <key>: if fail_on_error: fail_json(...); return port_ids].
    The dictionary is called [ports_ids]; [port_ids] is not defined. *)
Definition require_param {A} (module : ansible_module) (fail_on_error : bool)
    (key : string) (missing : string) (k : res A) : res A :=
  if negb (truthy (param module key)) then
    fail_if fail_on_error (Msg missing) (Raise (NameError "port_ids"))
  else k.

(** [port = cloud.get_port(<key>); if port is None: ... else: ports_ids[key] = port['id']] *)
Definition resolve_port (module : ansible_module) (cloud : cloud) (fail_on_error : bool)
    (key : string) (not_found : string) (ports_ids : gmap string value)
  : res (gmap string value) :=
  do port <- get_port cloud (param module key);
  match port with
  | None => fail_if fail_on_error (Msg not_found) (Ret ports_ids)
  | Some port => do i <- getitem port "id"; Ret (<[key := i]> ports_ids)
  end.

Definition _ports_get_ids (module : ansible_module) (cloud : cloud)
    (fail_on_error : bool) : res (gmap string value) :=
  let ports_ids := ∅ in
  require_param module fail_on_error "ingress"
    "Parameter 'ingress' is required in Sfc Port Pair Create" (
  require_param module fail_on_error "egress"
    "Parameter 'egress' is required in Sfc Port Pair Create" (
  do ports_ids <- resolve_port module cloud fail_on_error "ingress"
                    "Specified ingress port was not found." ports_ids;
  do ports_ids <- resolve_port module cloud fail_on_error "egress"
                    "Specified egress port was not found." ports_ids;
  Ret ports_ids)).

Definition main (module : ansible_module) (cloud : cloud) : res unit * list call :=
  try_except (
    let name := param module "name" in
    doM pp <- lift (lookup_by_name (get_sfc_port_pair cloud) name);
    doM _ <- (if check_mode module then
                doM ports <- lift (_ports_get_ids module cloud false);
                doM changed <- lift (_system_state_change module pp ports);
                lift (exit_json changed ∅)
              else lift (Ret tt));
    let changed := false in
    doM _ <- (if bool_decide (state module = present) then
                doM ports <- lift (_ports_get_ids module cloud true);
                doM r <- match as_truthy pp with
                         | None =>
                             let pp_kwargs := _compose_port_pair_args module in
                             doM i <- lift (getitem ports "ingress");
                             let pp_kwargs := <["ingress" := i]> pp_kwargs in
                             doM e <- lift (getitem ports "egress");
                             let pp_kwargs := <["egress" := e]> pp_kwargs in
                             doM pp <- create_sfc_port_pair cloud pp_kwargs;
                             lift (Ret (pp, true))
                         | Some pp =>
                             doM upd <- lift (_needs_update module pp ports);
                             if upd : bool then
                               let pp_kwargs := _compose_port_pair_args module in
                               doM i <- lift (getitem pp "id");
                               doM pp <- update_sfc_port_pair cloud i pp_kwargs;
                               lift (Ret (pp, true))
                             else lift (Ret (pp, changed))
                         end;
                doM i <- lift (getitem r.1 "id");
                lift (exit_json r.2 {[ "id" := i; "port_pair" := VDict r.1 ]})
              else lift (Ret tt));
    doM _ <- (if bool_decide (state module = absent) then
                doM changed <- match as_truthy pp with
                               | Some pp =>
                                   doM i <- lift (getitem pp "id");
                                   doM _ <- delete_sfc_port_pair cloud i;
                                   lift (Ret true)
                               | None => lift (Ret changed)
                               end;
                lift (exit_json changed ∅)
              else lift (Ret tt));
    lift (Ret tt)) [].

Arguments _needs_update : simpl never.
Arguments _system_state_change : simpl never.
Arguments _compose_port_pair_args : simpl never.
Arguments _ports_get_ids : simpl never.

End os_sfc_port_pair.

(** ** os_sfc_port_pair_group.py *)
Module os_sfc_port_pair_group.

Definition compare_dict : list string := ["port_pair_group_parameters"].

(** [port_pairs] is what [_port_pairs_get_ids] returned: a list or [None]. *)
Definition _needs_update (module : ansible_module) (ppg : gmap string value)
    (port_pairs : value) : res bool :=
  do wanted <- py_set port_pairs;
  do cur <- getitem ppg "port_pairs";
  do have <- py_set cur;
  if set_ne wanted have then Ret true
  else
  after_loop
    (for_in compare_dict tt (λ key _,
       if is_none (param module key) then Ret (Next tt)
       else
         do cur <- getitem ppg key;
         if py_ne (param module key) cur then Ret (Return true) else Ret (Next tt)))
    (λ _, Ret false).

Definition _system_state_change (module : ansible_module)
    (ppg : option (gmap string value)) (port_pairs : value) : res bool :=
  if bool_decide (state module = present) then
    match as_truthy ppg with
    | None => Ret true
    | Some ppg => _needs_update module ppg port_pairs
    end
  else if bool_decide (state module = absent) && bool_decide (is_Some (as_truthy ppg))
  then Ret true
  else Ret false.

Definition optional_parameters : list string :=
  ["name"; "port_pair_group_parameters"].

Definition _compose_port_pair_group_args (module : ansible_module)
    (port_pairs : value) : gmap string value :=
  let ppg_kwargs := set_optional module optional_parameters ∅ in
  <["port_pairs" := port_pairs]> ppg_kwargs.

Definition _port_pairs_get_ids (module : ansible_module) (cloud : cloud)
    (fail_on_error : bool) : res value :=
  let port_pair_ids := param module "port_pairs" in
  if negb (truthy port_pair_ids) then
    fail_if fail_on_error
      (Msg "Parameter 'port_pairs' is required in Sfc Port Pair Group Create")
      (Ret VNone)
  else
    do names <- py_iter port_pair_ids;
    after_loop
      (for_in names [] (λ pp_name port_pairs,
         do pp <- get_sfc_port_pair cloud pp_name;
         do _ <- match pp with
                 | None =>
                     fail_if fail_on_error
                       (Fmt "Specified port pair `%s' was not found." pp_name)
                       (Ret tt)
                 | Some _ => Ret tt
                 end;
         do i <- subscript pp "id";
         Ret (Next (port_pairs ++ [i]))))
      (λ port_pairs, Ret (VList port_pairs)).

(** The functions defined at the top level of the module that build keyword
    arguments, by name. *)
Definition composer := ansible_module → value → gmap string value.

Definition module_globals (name : string) : option composer :=
  if bool_decide (name = "_compose_port_pair_group_args")
  then Some _compose_port_pair_group_args
  else None.

(** Evaluation of a global name. *)
Definition global (globals : string → option composer) (name : string) : res composer :=
  match globals name with
  | Some f => Ret f
  | None => Raise (NameError name)
  end.

(** [main], with the module's global names resolved in [globals]. *)
Definition main_in (globals : string → option composer)
    (module : ansible_module) (cloud : cloud) : res unit * list call :=
  try_except (
    let name := param module "name" in
    doM ppg <- lift (lookup_by_name (get_sfc_port_pair_group cloud) name);
    doM _ <- (if check_mode module then
                doM port_pairs_ids <- lift (_port_pairs_get_ids module cloud false);
                doM changed <- lift (_system_state_change module ppg port_pairs_ids);
                lift (exit_json changed ∅)
              else lift (Ret tt));
    let changed := false in
    doM _ <- (if bool_decide (state module = present) then
                doM port_pairs_ids <- lift (_port_pairs_get_ids module cloud true);
                doM r <- match as_truthy ppg with
                         | None =>
                             doM compose <- lift (global globals "_compose_port_pair_group_args");
                             let ppg_kwargs := compose module port_pairs_ids in
                             doM ppg <- create_sfc_port_pair_group cloud ppg_kwargs;
                             lift (Ret (ppg, true))
                         | Some ppg =>
                             doM upd <- lift (_needs_update module ppg port_pairs_ids);
                             if upd : bool then
                               doM compose <- lift (global globals "_compose_port_pair_groups_args");
                               let ppg_kwargs := compose module port_pairs_ids in
                               doM i <- lift (getitem ppg "id");
                               doM ppg <- update_sfc_port_pair cloud i ppg_kwargs;
                               lift (Ret (ppg, true))
                             else lift (Ret (ppg, changed))
                         end;
                doM i <- lift (getitem r.1 "id");
                lift (exit_json r.2 {[ "id" := i; "port_pair_group" := VDict r.1 ]})
              else lift (Ret tt));
    doM _ <- (if bool_decide (state module = absent) then
                doM changed <- match as_truthy ppg with
                               | Some ppg =>
                                   doM i <- lift (getitem ppg "id");
                                   doM _ <- delete_sfc_port_pair_group cloud i;
                                   lift (Ret true)
                               | None => lift (Ret changed)
                               end;
                lift (exit_json changed ∅)
              else lift (Ret tt));
    lift (Ret tt)) [].

Definition main := main_in module_globals.

Arguments _needs_update : simpl never.
Arguments _system_state_change : simpl never.
Arguments _compose_port_pair_group_args : simpl never.
Arguments _port_pairs_get_ids : simpl never.
Arguments global : simpl never.

End os_sfc_port_pair_group.

(** ** os_sfc_port_chain.py *)
Module os_sfc_port_chain.

Definition compare_simple : list string := ["chain_id"].
Definition compare_list : list string := ["port_pair_groups"; "flow_classifiers"].
Definition compare_dict : list string := ["chain_parameters"].

(** [pc_ids] is what [_port_chains_get_ids] returned: a dictionary or [None].
    The variable [value] is assigned in the first two loops and read in all
    three; it is the loop-carried state (unbound, here [None], before the
    first assignment). *)
Definition _needs_update (module : ansible_module) (pc : gmap string value)
    (pc_ids : value) : res bool :=
  after_loop
    (for_in compare_simple VNone (λ key _,
       do ids <- attr_get pc_ids;
       do cur <- getitem pc key;
       let value := default cur (ids !! key) in
       if negb (is_none (param module key)) && py_ne (param module key) value
       then Ret (Return true) else Ret (Next value)))
    (λ value,
  after_loop
    (for_in compare_list value (λ key _,
       do ids <- attr_get pc_ids;
       do cur <- getitem pc key;
       let value := default cur (ids !! key) in
       if is_none (param module key) then Ret (Next value)
       else
         (* set(module.param[key]) != set(value) *)
         do param_attr <- module_attr module "param";
         do given <- getitem param_attr key;
         do wanted <- py_set given;
         do have <- py_set value;
         if set_ne wanted have then Ret (Return true) else Ret (Next value)))
    (λ value,
  after_loop
    (for_in compare_dict value (λ key value,
       if negb (is_none (param module key)) && py_ne (param module key) value
       then Ret (Return true) else Ret (Next value)))
    (λ _, Ret false))).

Definition _system_state_change (module : ansible_module)
    (pc : option (gmap string value)) (pc_ids : value) : res bool :=
  if bool_decide (state module = present) then
    match as_truthy pc with
    | None => Ret true
    | Some pc => _needs_update module pc pc_ids
    end
  else if bool_decide (state module = absent) && bool_decide (is_Some (as_truthy pc))
  then Ret true
  else Ret false.

Definition optional_parameters : list string :=
  ["name"; "port_pair_groups"; "flow_classifiers"; "chain_parameters"; "chain_id"].

Definition _compose_port_chain_args (module : ansible_module) (pc_ids : value)
  : res (gmap string value) :=
  after_loop
    (for_in optional_parameters ∅ (λ optional_param pc_kwargs,
       if is_none (param module optional_param) then Ret (Next pc_kwargs)
       else
         do ids <- attr_get pc_ids;
         let value := default (param module optional_param) (ids !! optional_param) in
         Ret (Next (<[optional_param := value]> pc_kwargs))))
    (λ pc_kwargs, Ret pc_kwargs).

(** One of the two resolution loops of [_port_chains_get_ids]:
    [for name in names: obj = get(name); if obj is None: ...; return None;
     pc_ids[key].append(obj['id'])].  A [Return] leaves the function. *)
Definition resolve_all (get : value → res (option (gmap string value)))
    (fail_on_error : bool) (not_found : string) (names : list value)
  : res (flow value (list value)) :=
  for_in names [] (λ name ids,
    do obj <- get name;
    match obj with
    | None => fail_if fail_on_error (Fmt not_found name) (Ret (Return VNone))
    | Some obj => do i <- getitem obj "id"; Ret (Next (ids ++ [i]))
    end).

Definition _port_chains_get_ids (module : ansible_module) (cloud : cloud)
    (fail_on_error : bool) : res value :=
  let ppg_names := param module "port_pair_groups" in
  if negb (truthy ppg_names) then
    fail_if fail_on_error
      (Msg "Parameter 'port_pair_groups' is required in Sfc Port Chain Create")
      (Ret VNone)
  else
    do names <- py_iter ppg_names;
    after_loop
      (resolve_all (get_sfc_port_pair_group cloud) fail_on_error
         "Specified port pair group `%s' wat not found." names)
      (λ port_pair_groups,
    let fc_names := param module "flow_classifiers" in
    if negb (truthy fc_names) then
      fail_if fail_on_error
        (Msg "Parameter 'flow_classifiers' is required in Sfc Port Chain Create")
        (Ret VNone)
    else
      do names <- py_iter fc_names;
      after_loop
        (resolve_all (get_sfc_flow_classifier cloud) fail_on_error
           "Specified port pair group `%s' wat not found." names)
        (λ flow_classifiers,
      Ret (VDict {[ "port_pair_groups" := VList port_pair_groups;
                    "flow_classifiers" := VList flow_classifiers ]}))).

Definition main (module : ansible_module) (cloud : cloud) : res unit * list call :=
  try_except (
    let name := param module "name" in
    doM pc <- lift (lookup_by_name (get_sfc_port_chain cloud) name);
    doM _ <- (if check_mode module then
                doM pc_ids <- lift (_port_chains_get_ids module cloud false);
                doM changed <- lift (_system_state_change module pc pc_ids);
                lift (exit_json changed ∅)
              else lift (Ret tt));
    let changed := false in
    doM _ <- (if bool_decide (state module = present) then
                doM pc_ids <- lift (_port_chains_get_ids module cloud true);
                doM r <- match as_truthy pc with
                         | None =>
                             doM pc_kwargs <- lift (_compose_port_chain_args module pc_ids);
                             doM pc <- create_sfc_port_chain cloud pc_kwargs;
                             lift (Ret (pc, true))
                         | Some pc =>
                             doM upd <- lift (_needs_update module pc pc_ids);
                             if upd : bool then
                               doM pc_kwargs <- lift (_compose_port_chain_args module pc_ids);
                               doM i <- lift (getitem pc "id");
                               doM pc <- update_sfc_port_chain cloud i pc_kwargs;
                               lift (Ret (pc, true))
                             else lift (Ret (pc, changed))
                         end;
                doM i <- lift (getitem r.1 "id");
                lift (exit_json r.2 {[ "id" := i; "port_chain" := VDict r.1 ]})
              else lift (Ret tt));
    doM _ <- (if bool_decide (state module = absent) then
                doM changed <- match as_truthy pc with
                               | Some pc =>
                                   doM i <- lift (getitem pc "id");
                                   doM _ <- delete_sfc_port_chain cloud i;
                                   lift (Ret true)
                               | None => lift (Ret changed)
                               end;
                lift (exit_json changed ∅)
              else lift (Ret tt));
    lift (Ret tt)) [].

Arguments _needs_update : simpl never.
Arguments _system_state_change : simpl never.
Arguments _compose_port_chain_args : simpl never.
Arguments _port_chains_get_ids : simpl never.

End os_sfc_port_chain.

(** ** The operation each module exposes *)

(** [apply k module cloud] runs the module of kind [k]: the way the
    invocation ends, and the mutating calls it issued, in order. *)
Definition apply (k : sfc_kind) (module : ansible_module) (cloud : cloud)
  : res unit * list call :=
  match k with
  | FlowClassifier => os_sfc_flow_classifier.main module cloud
  | PortPair => os_sfc_port_pair.main module cloud
  | PortPairGroup => os_sfc_port_pair_group.main module cloud
  | PortChain => os_sfc_port_chain.main module cloud
  end.

(** The [changed] flag an invocation reported, if it ended in [exit_json]. *)
Definition changed_of (r : res unit * list call) : option bool :=
  match r.1 with
  | ExitJson c _ => Some c
  | _ => None
  end.

(** ** Notions used in the statements *)

(** The lookup of the current object that opens every [main]. *)
Definition get_current (k : sfc_kind) (module : ansible_module) (cloud : cloud)
  : res (option (gmap string value)) :=
  lookup_by_name (λ name, of_cloud (cloud_get cloud (Sfc k) name)) (param module "name").

(** The read-only computation of a check-mode run: the current object, the
    references resolved with [fail_on_error=False], and the decision of
    [_system_state_change]. *)
Definition speculate (k : sfc_kind) (module : ansible_module) (cloud : cloud) : res bool :=
  match k with
  | FlowClassifier =>
      do fc <- get_current FlowClassifier module cloud;
      do ports <- os_sfc_flow_classifier._ports_get_ids module cloud false;
      os_sfc_flow_classifier._system_state_change module fc ports
  | PortPair =>
      do pp <- get_current PortPair module cloud;
      do ports <- os_sfc_port_pair._ports_get_ids module cloud false;
      os_sfc_port_pair._system_state_change module pp ports
  | PortPairGroup =>
      do ppg <- get_current PortPairGroup module cloud;
      do port_pairs_ids <- os_sfc_port_pair_group._port_pairs_get_ids module cloud false;
      os_sfc_port_pair_group._system_state_change module ppg port_pairs_ids
  | PortChain =>
      do pc <- get_current PortChain module cloud;
      do pc_ids <- os_sfc_port_chain._port_chains_get_ids module cloud false;
      os_sfc_port_chain._system_state_change module pc pc_ids
  end.

(** How a check-mode run ends, given what [speculate] produced:
    [exit_json(changed=...)] with nothing else, the failure of the [except]
    clause for a store error, or the uncaught exception. *)
Definition report (r : res bool) : res unit :=
  match r with
  | Ret changed => ExitJson changed ∅
  | ExitJson c ret => ExitJson c ret
  | FailJson msg => FailJson msg
  | Raise (OpenStackCloudException msg) => FailJson (Msg msg)
  | Raise e => Raise e
  end.

(** ** A small remote store for the scenarios *)

(** Named objects per kind; a lookup matches the name or the id. *)
Definition store := list (rkind * (string * gmap string value)).

Definition matches (k : rkind) (name_or_id : value)
    (e : rkind * (string * gmap string value)) : bool :=
  bool_decide (e.1 = k)
  && (bool_decide (VStr e.2.1 = name_or_id) || bool_decide (e.2.2 !! "id" = Some name_or_id)).

Definition find_object (s : store) (k : rkind) (name_or_id : value)
  : option (gmap string value) :=
  (λ e, e.2.2) <$> List.find (matches k name_or_id) s.

(** A store that answers every call: a created object is the payload with a
    fresh id, an updated one the payload with its id. *)
Definition cloud_of (s : store) : cloud := {|
  cloud_get k name_or_id := inr (find_object s k name_or_id);
  cloud_create _ kw := inr (<["id" := VStr "new-id"]> kw);
  cloud_update _ i kw := inr (<["id" := i]> kw);
  cloud_delete _ _ := inr tt;
|}.

Definition mk_module (ps : list (string * value)) (st : target_state) (chk : bool)
  : ansible_module :=
  {| params := list_to_map ps; state := st; check_mode := chk |}.

Definition dict (l : list (string * value)) : gmap string value := list_to_map l.

(** Two ports and two port pairs, no SFC group or chain yet. *)
Definition base_store : store :=
  [ (Port, ("port1", dict [("id", VStr "p1")]));
    (Port, ("port2", dict [("id", VStr "p2")]));
    (Sfc PortPair, ("pp1", dict [("id", VStr "pp-id-1"); ("name", VStr "pp1");
                                 ("ingress", VStr "p1"); ("egress", VStr "p2");
                                 ("service_function_parameters",
                                  VDict (dict [("correlation", VStr "mpls")]))]));
    (Sfc PortPair, ("pp2", dict [("id", VStr "pp-id-2"); ("name", VStr "pp2");
                                 ("ingress", VStr "p2"); ("egress", VStr "p1");
                                 ("service_function_parameters", VNone)])) ].

(** [state: absent] with only the name given, run with [--check]. *)
Definition absent_by_name_check : ansible_module :=
  mk_module [("name", VStr "pp9")] absent true.

(** An existing group holding [pp1] only, and a request that asks for both
    port pairs. *)
Definition existing_group : gmap string value :=
  dict [("id", VStr "ppg-id-1"); ("name", VStr "ppg1");
        ("port_pairs", VList [VStr "pp-id-1"]);
        ("port_pair_group_parameters", VNone)].

Definition group_store : store :=
  base_store ++ [ (Sfc PortPairGroup, ("ppg1", existing_group)) ].

Definition grow_group : ansible_module :=
  mk_module [("name", VStr "ppg1"); ("port_pairs", VList [VStr "pp1"; VStr "pp2"])]
    present false.

(** Scenario 1: a new flow classifier given by two prefixes, here run with
    [--check]. *)
Definition create_classifier_check : ansible_module :=
  mk_module [("name", VStr "fc1"); ("source_ip_prefix", VStr "10.20.0.0/24");
             ("destination_ip_prefix", VStr "10.22.2.0/24")] present true.

(** ** The name in update payloads *)

(** No update call of the invocation carries the [name] keyword. *)
Definition update_payloads_omit_name (k : sfc_kind) (module : ansible_module)
    (cloud : cloud) : Prop :=
  ∀ k' i kw, Update k' i kw ∈ (apply k module cloud).2 → kw !! "name" = None.

(** The request under another name. *)
Definition with_name (module : ansible_module) (n : value) : ansible_module :=
  {| params := <["name" := n]> (params module);
     state := state module;
     check_mode := check_mode module |}.

(** The needs-update decision of the module of kind [k] does not read the
    name: on every current object and every resolution result it is the
    same for the request under any other name. *)
Definition decision_ignores_name (k : sfc_kind) (module : ansible_module) : Prop :=
  ∀ (n : value) (obj : gmap string value),
    match k with
    | FlowClassifier =>
        ∀ ports, os_sfc_flow_classifier._needs_update (with_name module n) obj ports
                 = os_sfc_flow_classifier._needs_update module obj ports
    | PortPair =>
        ∀ ports, os_sfc_port_pair._needs_update (with_name module n) obj ports
                 = os_sfc_port_pair._needs_update module obj ports
    | PortPairGroup =>
        ∀ ids, os_sfc_port_pair_group._needs_update (with_name module n) obj ids
               = os_sfc_port_pair_group._needs_update module obj ids
    | PortChain =>
        ∀ ids, os_sfc_port_chain._needs_update (with_name module n) obj ids
               = os_sfc_port_chain._needs_update module obj ids
    end.

(** Scenario 5: the port pair [pp1] exists with correlation [mpls]; the request
    asks for [nsh] and names the ports by their ids. *)
Definition change_correlation : ansible_module :=
  mk_module [("name", VStr "pp1"); ("ingress", VStr "p1"); ("egress", VStr "p2");
             ("service_function_parameters", VDict (dict [("correlation", VStr "nsh")]))]
    present false.

Definition change_correlation_payload : gmap string value :=
  dict [("name", VStr "pp1"); ("ingress", VStr "p1"); ("egress", VStr "p2");
        ("service_function_parameters", VDict (dict [("correlation", VStr "nsh")]))].

(** ** Scenarios on groups and chains *)

(** Two groups, a flow classifier and a chain over them. *)
Definition chain_store : store :=
  group_store ++
  [ (Sfc PortPairGroup, ("ppg2", dict [("id", VStr "ppg-id-2"); ("name", VStr "ppg2");
                                       ("port_pairs", VList [VStr "pp-id-1"; VStr "pp-id-2"]);
                                       ("port_pair_group_parameters", VNone)]));
    (Sfc FlowClassifier, ("fc1", dict [("id", VStr "fc-id-1"); ("name", VStr "fc1")]));
    (Sfc PortChain, ("pc1", dict [("id", VStr "pc-id-1"); ("name", VStr "pc1");
                                  ("port_pair_groups", VList [VStr "ppg-id-1"; VStr "ppg-id-2"]);
                                  ("flow_classifiers", VList [VStr "fc-id-1"]);
                                  ("chain_parameters", VDict (dict [("correlation", VStr "mpls")]));
                                  ("chain_id", VNone)])) ].

(** Scenario 2: the group [ppg2] holds both port pairs; the request lists them
    in the other order. *)
Definition reordered_group : ansible_module :=
  mk_module [("name", VStr "ppg2"); ("port_pairs", VList [VStr "pp2"; VStr "pp1"])]
    present false.

(** The chain [pc1] exists; the request lists its groups in the other order. *)
Definition reordered_chain : ansible_module :=
  mk_module [("name", VStr "pc1");
             ("port_pair_groups", VList [VStr "ppg2"; VStr "ppg1"]);
             ("flow_classifiers", VList [VStr "fc1"])]
    present false.

(** The request repeats the chain parameters the chain already has. *)
Definition same_chain_parameters : ansible_module :=
  mk_module [("name", VStr "pc1");
             ("port_pair_groups", VList [VStr "ppg1"; VStr "ppg2"]);
             ("flow_classifiers", VList [VStr "fc1"]);
             ("chain_parameters", VDict (dict [("correlation", VStr "mpls")]))]
    present false.

(** The same parameters with no list supplied, for [_needs_update] alone. *)
Definition only_chain_parameters : ansible_module :=
  mk_module [("name", VStr "pc1");
             ("chain_parameters", VDict (dict [("correlation", VStr "mpls")]))]
    present false.

(** The chain as the store returns it. *)
Definition pc1 : gmap string value :=
  dict [("id", VStr "pc-id-1"); ("name", VStr "pc1");
        ("port_pair_groups", VList [VStr "ppg-id-1"; VStr "ppg-id-2"]);
        ("flow_classifiers", VList [VStr "fc-id-1"]);
        ("chain_parameters", VDict (dict [("correlation", VStr "mpls")]));
        ("chain_id", VNone)].

(** ** Required list references *)

(** The message is the missing-required-field error of [field]. *)
Definition missing_required (field : string) (msg : message) : bool :=
  match msg with
  | Msg s => String.prefix ("Parameter '" +:+ field +:+ "' is required") s
  | Fmt _ _ => false
  end.

(** C6 as stated, at one invocation: it fails with the missing-required-field
    error of [field], and no call was issued. *)
Definition fails_missing_required (k : sfc_kind) (field : string)
    (module : ansible_module) (cloud : cloud) : Prop :=
  ∃ msg, apply k module cloud = (FailJson msg, []) ∧ missing_required field msg = true.

(** Scenario 3, with a group name that does not resolve: a new chain without
    flow classifiers. *)
Definition chain_without_classifiers : ansible_module :=
  mk_module [("name", VStr "pc9"); ("port_pair_groups", VList [VStr "nope"])]
    present false.

(** Scenario 3: a new chain over an existing group, without flow
    classifiers. *)
Definition chain_without_classifiers_resolved : ansible_module :=
  mk_module [("name", VStr "pc9"); ("port_pair_groups", VList [VStr "ppg1"]);
             ("flow_classifiers", VList [])]
    present false.

(** The code ended by [fail_json] or by an exception. *)
Definition aborts {A} (r : res A) : Prop :=
  match r with
  | FailJson _ | Raise _ => True
  | _ => False
  end.

(** ** References that do not resolve *)

(** The text [s] occurs in [t]. *)
Definition occurs (s t : string) : bool :=
  match String.index 0 s t with
  | Some _ => true
  | None => false
  end.

(** The message names the string [s]: in its text, or as the argument of
    its template. *)
Definition mentions (msg : message) (s : string) : bool :=
  match msg with
  | Msg t => occurs s t
  | Fmt t arg => occurs s t || bool_decide (arg = VStr s)
  end.

(** C7 as stated, at one invocation: it fails with a message naming the
    field and the supplied value, and no call was issued. *)
Definition fails_naming (k : sfc_kind) (field value : string)
    (module : ansible_module) (cloud : cloud) : Prop :=
  ∃ msg, apply k module cloud = (FailJson msg, [])
         ∧ mentions msg field = true ∧ mentions msg value = true.

(** Scenario 4: a new port pair whose ingress port is not in the store. *)
Definition unknown_ingress : ansible_module :=
  mk_module [("name", VStr "pp9"); ("ingress", VStr "port9"); ("egress", VStr "port2")]
    present false.

(** A new group over a port pair that is not in the store. *)
Definition unknown_port_pair : ansible_module :=
  mk_module [("name", VStr "ppg9"); ("port_pairs", VList [VStr "pp1"; VStr "pp9"])]
    present false.

(** A new chain whose groups are in the store and whose second flow
    classifier is not. *)
Definition unknown_classifier : ansible_module :=
  mk_module [("name", VStr "pc9");
             ("port_pair_groups", VList [VStr "ppg1"; VStr "ppg2"]);
             ("flow_classifiers", VList [VStr "fc1"; VStr "fc9"])]
    present false.

(** ** Applying the same request twice *)

(** C2 as stated, at one request: applied to the store [before], it reports a
    change; applied again to the store [after], it reports none. *)
Definition changed_then_unchanged (k : sfc_kind) (module : ansible_module)
    (before after : cloud) : Prop :=
  changed_of (apply k module before) = Some true
  ∧ changed_of (apply k module after) = Some false.

(** The kinds of resource a module looks up to resolve its references. *)
Definition dependencies (k : sfc_kind) : list rkind :=
  match k with
  | FlowClassifier | PortPair => [Port]
  | PortPairGroup => [Sfc PortPair]
  | PortChain => [Sfc PortPairGroup; Sfc FlowClassifier]
  end.

(** The fields of the current object that [_needs_update] reads. *)
Definition compared_fields (k : sfc_kind) : list string :=
  match k with
  | FlowClassifier =>
      os_sfc_flow_classifier.compare_simple ++ os_sfc_flow_classifier.compare_dict
  | PortPair => os_sfc_port_pair.compare_simple ++ os_sfc_port_pair.compare_dict
  | PortPairGroup => "port_pairs" :: os_sfc_port_pair_group.compare_dict
  | PortChain =>
      os_sfc_port_chain.compare_simple ++ os_sfc_port_chain.compare_list
      ++ os_sfc_port_chain.compare_dict
  end.

(** The key under which [exit_json] returns the object. *)
Definition result_key (k : sfc_kind) : string :=
  match k with
  | FlowClassifier => "flow_classifier"
  | PortPair => "port_pair"
  | PortPairGroup => "port_pair_group"
  | PortChain => "port_chain"
  end.

(** The request names its references by their canonical ids: each scalar
    reference it supplies is the id that went into the create payload, and
    the ids of a list reference are hashable (strings, in practice). *)
Definition references_by_id (k : sfc_kind) (module : ansible_module)
    (payload : gmap string value) : Prop :=
  match k with
  | FlowClassifier =>
      Forall (λ key, param module key = VNone ∨ payload !! key = Some (param module key))
        ["logical_source_port"; "logical_destination_port"]
  | PortPair =>
      Forall (λ key, payload !! key = Some (param module key)) ["ingress"; "egress"]
  | PortPairGroup =>
      ∀ ids, payload !! "port_pairs" = Some (VList ids) → forallb hashable ids = true
  | PortChain => True
  end.

(** Scenario 1 without a name. *)
Definition nameless_classifier : ansible_module :=
  mk_module [("source_ip_prefix", VStr "10.20.0.0/24");
             ("destination_ip_prefix", VStr "10.22.2.0/24")] present false.

(** The store after the first run of [nameless_classifier]. *)
Definition store_with_nameless : store :=
  base_store ++
  [ (Sfc FlowClassifier,
     ("", dict [("id", VStr "new-id"); ("source_ip_prefix", VStr "10.20.0.0/24");
                ("destination_ip_prefix", VStr "10.22.2.0/24")])) ].

(** A new port pair over two ports named by id, and the store after its
    creation. *)
Definition new_port_pair : ansible_module :=
  mk_module [("name", VStr "pp3"); ("ingress", VStr "p1"); ("egress", VStr "p2")]
    present false.

Definition new_port_pair_payload : gmap string value :=
  dict [("name", VStr "pp3"); ("ingress", VStr "p1"); ("egress", VStr "p2")].

Definition created_port_pair : gmap string value :=
  dict [("id", VStr "new-id"); ("name", VStr "pp3"); ("ingress", VStr "p1");
        ("egress", VStr "p2"); ("service_function_parameters", VNone)].

Definition store_with_new_port_pair : store :=
  base_store ++ [ (Sfc PortPair, ("pp3", created_port_pair)) ].

(** ** Proof steps *)

(** Unfolds [apply], the [main] of each module and the trace monad. *)
Ltac unfold_main :=
  unfold apply, os_sfc_flow_classifier.main, os_sfc_port_pair.main,
    os_sfc_port_pair_group.main, os_sfc_port_pair_group.main_in, os_sfc_port_chain.main,
    try_except, M_bind, lift, exit_json,
    create_sfc_flow_classifier, update_sfc_flow_classifier, delete_sfc_flow_classifier,
    create_sfc_port_pair, update_sfc_port_pair, delete_sfc_port_pair,
    create_sfc_port_pair_group, update_sfc_port_pair_group, delete_sfc_port_pair_group,
    create_sfc_port_chain, update_sfc_port_chain, delete_sfc_port_chain,
    create_sfc, update_sfc, delete_sfc, issue, of_cloud.

Ltac split_cases := repeat (case_match; simplify_eq/=).

(** Unfolds the [main] of each module, keeping its first lookup folded as
    [get_current]. *)
Ltac fold_current :=
  unfold apply, os_sfc_flow_classifier.main, os_sfc_port_pair.main,
    os_sfc_port_pair_group.main, os_sfc_port_pair_group.main_in, os_sfc_port_chain.main;
  try change (lookup_by_name (get_sfc_flow_classifier ?c) (param ?m "name"))
    with (get_current FlowClassifier m c);
  try change (lookup_by_name (get_sfc_port_pair ?c) (param ?m "name"))
    with (get_current PortPair m c);
  try change (lookup_by_name (get_sfc_port_pair_group ?c) (param ?m "name"))
    with (get_current PortPairGroup m c);
  try change (lookup_by_name (get_sfc_port_chain ?c) (param ?m "name"))
    with (get_current PortChain m c).

(** ** Further scenarios *)

(** A store whose every operation raises [OpenStackCloudException]. *)
Definition failing_cloud (msg : string) : cloud := {|
  cloud_get _ _ := inl msg;
  cloud_create _ _ := inl msg;
  cloud_update _ _ _ := inl msg;
  cloud_delete _ _ := inl msg;
|}.

(** The store [s], except that it rejects every create, update and delete. *)
Definition read_only_cloud (s : store) (msg : string) : cloud := {|
  cloud_get k name_or_id := inr (find_object s k name_or_id);
  cloud_create _ _ := inl msg;
  cloud_update _ _ _ := inl msg;
  cloud_delete _ _ := inl msg;
|}.

(** [state: absent] for the port pair [pp1], which exists, and for a chain
    that does not. *)
Definition remove_port_pair : ansible_module :=
  mk_module [("name", VStr "pp1")] absent false.

Definition remove_missing_chain : ansible_module :=
  mk_module [("name", VStr "pc9")] absent false.

(** The call is a mutation of kind [k] that fits the target state: a create
    or an update for [present], a delete for [absent]. *)
Definition fits_state (k : sfc_kind) (st : target_state) (c : call) : Prop :=
  match st, c with
  | present, Create k' _ => k' = k
  | present, Update k' _ _ => k' = k
  | absent, Delete k' _ => k' = k
  | _, _ => False
  end.

Definition is_create (c : call) : Prop :=
  match c with Create _ _ => True | _ => False end.

(** A port pair request that leaves out [egress], and the same in check
    mode. *)
Definition no_egress : ansible_module :=
  mk_module [("name", VStr "pp1"); ("ingress", VStr "port1")] present false.

Definition no_egress_check : ansible_module :=
  mk_module [("name", VStr "pp1"); ("ingress", VStr "port1")] present true.

(** The port pair [pp1] exists over the ports [p1] and [p2]; the request
    names the same ports by name and changes nothing. *)
Definition same_ports_by_name : ansible_module :=
  mk_module [("name", VStr "pp1"); ("ingress", VStr "port1"); ("egress", VStr "port2")]
    present false.

(** A new port pair over ports given by name. *)
Definition new_port_pair_by_name : ansible_module :=
  mk_module [("name", VStr "pp3"); ("ingress", VStr "port1"); ("egress", VStr "port2")]
    present false.

(** A new flow classifier whose logical source port is not in the store. *)
Definition classifier_unknown_port : ansible_module :=
  mk_module [("name", VStr "fc9"); ("source_ip_prefix", VStr "10.20.0.0/24");
             ("logical_source_port", VStr "port9")] present false.

(** The code returned a value or raised a Python exception of its own: it
    neither ended the process nor saw an error of the store. *)
Definition local_outcome {A} (r : res A) : Prop :=
  match r with
  | Ret _ => True
  | Raise (OpenStackCloudException _) => False
  | Raise _ => True
  | _ => False
  end.

(** The name resolves, in the lookup [get], to an object with the id [i]. *)
Definition resolves_to (get : value → res (option (gmap string value)))
    (name i : value) : Prop :=
  ∃ obj, get name = Ret (Some obj) ∧ obj !! "id" = Some i.

(** The group request of [unknown_port_pair], run in check mode. *)
Definition unknown_port_pair_check : ansible_module :=
  mk_module [("name", VStr "ppg9"); ("port_pairs", VList [VStr "pp1"; VStr "pp9"])]
    present true.

(** A new group over the two port pairs of the store. *)
Definition new_group : ansible_module :=
  mk_module [("name", VStr "ppg9"); ("port_pairs", VList [VStr "pp2"; VStr "pp1"])]
    present false.

(** A request for the existing chain [pc1] with another chain id. *)
Definition change_chain_id : ansible_module :=
  mk_module [("name", VStr "pc1");
             ("port_pair_groups", VList [VStr "ppg1"; VStr "ppg2"]);
             ("flow_classifiers", VList [VStr "fc1"]);
             ("chain_id", VStr "7")]
    present false.

(** The code did not end the process by [exit_json]. *)
Definition no_exit {A} (r : res A) : Prop :=
  match r with
  | ExitJson _ _ => False
  | _ => True
  end.

(** The references of a check-mode run were resolved without an exception
    (with [fail_on_error=False]). *)
Definition resolved_quietly (k : sfc_kind) (module : ansible_module) (cloud : cloud) : Prop :=
  match k with
  | FlowClassifier =>
      ∃ ports, os_sfc_flow_classifier._ports_get_ids module cloud false = Ret ports
  | PortPair => ∃ ports, os_sfc_port_pair._ports_get_ids module cloud false = Ret ports
  | PortPairGroup =>
      ∃ ids, os_sfc_port_pair_group._port_pairs_get_ids module cloud false = Ret ids
  | PortChain =>
      ∃ ids, os_sfc_port_chain._port_chains_get_ids module cloud false = Ret ids
  end.

(** [state: absent] for the chain [pc1] and a new group, both in check
    mode. *)
Definition remove_chain_check : ansible_module :=
  mk_module [("name", VStr "pc1")] absent true.

Definition new_group_check : ansible_module :=
  mk_module [("name", VStr "ppg9"); ("port_pairs", VList [VStr "pp2"; VStr "pp1"])]
    present true.

(** A request that changes the protocol of a flow classifier, and the
    classifier as the store holds it. *)
Definition change_protocol : ansible_module :=
  mk_module [("name", VStr "fc1"); ("protocol", VStr "udp")] present false.

Definition tcp_classifier : gmap string value :=
  dict [("id", VStr "fc-id-1"); ("name", VStr "fc1"); ("ethertype", VStr "IPv4");
        ("protocol", VStr "tcp"); ("source_port_range_min", VNone);
        ("source_port_range_max", VNone); ("destination_port_range_min", VNone);
        ("destination_port_range_max", VNone); ("source_ip_prefix", VNone);
        ("destination_ip_prefix", VNone); ("logical_source_port", VNone);
        ("logical_destination_port", VNone); ("l7_parameters", VDict ∅)].

(** The port pair [pp1] as the store holds it, and its resolved ports. *)
Definition mpls_port_pair : gmap string value :=
  dict [("id", VStr "pp-id-1"); ("name", VStr "pp1");
        ("ingress", VStr "p1"); ("egress", VStr "p2");
        ("service_function_parameters", VDict (dict [("correlation", VStr "mpls")]))].

Definition resolved_ports : gmap string value :=
  dict [("ingress", VStr "p1"); ("egress", VStr "p2")].

(** The object the store returned for a create or an update call, when it
    accepted the call. *)
Definition store_answer (cloud : cloud) (c : call) : option (gmap string value) :=
  match c with
  | Create k kw =>
      match cloud_create cloud k kw with inr obj => Some obj | inl _ => None end
  | Update k i kw =>
      match cloud_update cloud k i kw with inr obj => Some obj | inl _ => None end
  | Delete _ _ => None
  end.

(** Outside check mode the references of the request resolve and the
    comparison with the current object [obj] answers [False]. *)
Definition no_update_needed (k : sfc_kind) (module : ansible_module) (cloud : cloud)
    (obj : gmap string value) : Prop :=
  match k with
  | FlowClassifier =>
      ∃ ports, os_sfc_flow_classifier._ports_get_ids module cloud false = Ret ports
               ∧ os_sfc_flow_classifier._needs_update module obj ports = Ret false
  | PortPair =>
      ∃ ports, os_sfc_port_pair._ports_get_ids module cloud true = Ret ports
               ∧ os_sfc_port_pair._needs_update module obj ports = Ret false
  | PortPairGroup =>
      ∃ ids, os_sfc_port_pair_group._port_pairs_get_ids module cloud true = Ret ids
             ∧ os_sfc_port_pair_group._needs_update module obj ids = Ret false
  | PortChain =>
      ∃ ids, os_sfc_port_chain._port_chains_get_ids module cloud true = Ret ids
             ∧ os_sfc_port_chain._needs_update module obj ids = Ret false
  end.

(** A new chain over the groups and the classifier of the store, by name. *)
Definition new_chain : ansible_module :=
  mk_module [("name", VStr "pc9");
             ("port_pair_groups", VList [VStr "ppg2"; VStr "ppg1"]);
             ("flow_classifiers", VList [VStr "fc1"]);
             ("chain_id", VStr "9")]
    present false.

(** * Properties *)

(** C9. One invocation, of any module and in any mode, issues at most one
    mutating call (a create, an update or a delete) to the remote store. *)
Theorem at_most_one_mutating_call (k : sfc_kind) (module : ansible_module) (cloud : cloud) :
  length (apply k module cloud).2 ≤ 1.
Proof.
  destruct k; unfold_main; split_cases; lia.
Qed.

(** C3. In check mode no module issues a mutating call, whatever the desired
    state and the target state: the invocation ends the way the read-only
    computation [speculate] dictates, and when it exits normally it reports
    the [changed] flag of that computation and nothing else. *)
Theorem check_mode_never_mutates (k : sfc_kind) (module : ansible_module) (cloud : cloud) :
  check_mode module = true →
  apply k module cloud = (report (speculate k module cloud), []).
Proof.
  intros Hc.
  destruct k; unfold_main; unfold speculate, get_current, report, res_bind;
    unfold get_sfc_flow_classifier, get_sfc_port_pair, get_sfc_port_pair_group,
      get_sfc_port_chain, of_cloud;
    rewrite Hc; split_cases; reflexivity.
Qed.

Lemma as_truthy_Some (obj : gmap string value) : obj ≠ ∅ → as_truthy (Some obj) = Some obj.
Proof. intros H. unfold as_truthy. by rewrite bool_decide_false. Qed.

(** X1. Outside check mode, [state=absent] with no current object exits with
    [changed=false] and issues no call, for every module. *)
Lemma absent_missing_unchanged (k : sfc_kind) (module : ansible_module) (cloud : cloud) o :
  state module = absent → check_mode module = false →
  get_current k module cloud = Ret o → as_truthy o = None →
  apply k module cloud = (ExitJson false ∅, []).
Proof.
  intros Hs Hc Hcur Hnone.
  destruct k; fold_current; unfold_main; rewrite Hcur, Hs, Hc; simpl; by rewrite Hnone.
Qed.

(** C8. The port pair module, run in check mode with [state=absent] and only
    the name given, finds no current object and then raises [NameError]
    while resolving the ports, instead of reporting [changed=false]. *)
Theorem absent_check_mode_port_pair_raises :
  get_current PortPair absent_by_name_check (cloud_of base_store) = Ret None
  ∧ apply PortPair absent_by_name_check (cloud_of base_store)
    = (Raise (NameError "port_ids"), []).
Proof. split; reflexivity. Qed.

(** C10. In the port pair group module, when the group exists and needs an
    update, [main] raises [NameError] for [_compose_port_pair_groups_args]
    before any call is issued.  Whatever the global names are bound to, no
    call of the module is an update of a port pair group; were that name
    bound, the call reached would be the port pair update. *)
Theorem port_pair_group_update_unreachable
    (module : ansible_module) (cloud : cloud) (ppg : gmap string value) (ids : value) :
  state module = present → check_mode module = false →
  get_current PortPairGroup module cloud = Ret (Some ppg) → ppg ≠ ∅ →
  os_sfc_port_pair_group._port_pairs_get_ids module cloud true = Ret ids →
  os_sfc_port_pair_group._needs_update module ppg ids = Ret true →
  os_sfc_port_pair_group.main module cloud
  = (Raise (NameError "_compose_port_pair_groups_args"), [])
  ∧ (∀ globals j kw,
       Update PortPairGroup j kw ∉ (os_sfc_port_pair_group.main_in globals module cloud).2)
  ∧ (∀ globals compose i,
       globals "_compose_port_pair_groups_args" = Some compose →
       ppg !! "id" = Some i →
       (os_sfc_port_pair_group.main_in globals module cloud).2
       = [Update PortPair i (compose module ids)]).
Proof.
  intros Hs Hc Hcur Hne Hids Hupd.
  split; [|split].
  - unfold os_sfc_port_pair_group.main. fold_current. unfold_main.
    rewrite Hcur, Hs, Hc. simpl. rewrite Hids, (as_truthy_Some _ Hne), Hupd. reflexivity.
  - intros globals j kw. fold_current. unfold_main.
    rewrite Hcur, Hs, Hc. simpl. rewrite Hids, (as_truthy_Some _ Hne), Hupd.
    unfold os_sfc_port_pair_group.global, getitem.
    split_cases; rewrite ?list_elem_of_singleton; first [apply not_elem_of_nil | congruence].
  - intros globals compose i Hg Hid. fold_current. unfold_main.
    rewrite Hcur, Hs, Hc. simpl. rewrite Hids, (as_truthy_Some _ Hne), Hupd.
    unfold os_sfc_port_pair_group.global, getitem. rewrite Hg, Hid.
    split_cases; reflexivity.
Qed.

Lemma port_pair_group_update_unreachable_witness :
  os_sfc_port_pair_group.main grow_group (cloud_of group_store)
  = (Raise (NameError "_compose_port_pair_groups_args"), [])
  ∧ (∀ globals j kw,
       Update PortPairGroup j kw
       ∉ (os_sfc_port_pair_group.main_in globals grow_group (cloud_of group_store)).2)
  ∧ (∀ globals compose i,
       globals "_compose_port_pair_groups_args" = Some compose →
       existing_group !! "id" = Some i →
       (os_sfc_port_pair_group.main_in globals grow_group (cloud_of group_store)).2
       = [Update PortPair i
            (compose grow_group (VList [VStr "pp-id-1"; VStr "pp-id-2"]))]).
Proof.
  apply (port_pair_group_update_unreachable grow_group (cloud_of group_store)
           existing_group); try reflexivity.
  vm_compute. discriminate.
Defined.

Lemma check_mode_never_mutates_witness :
  apply FlowClassifier create_classifier_check (cloud_of base_store)
  = (report (speculate FlowClassifier create_classifier_check (cloud_of base_store)), []).
Proof. apply check_mode_never_mutates. reflexivity. Defined.

(** Scenario 1 in check mode reports [changed=true] and nothing else. *)
Lemma create_classifier_check_reports_changed :
  apply FlowClassifier create_classifier_check (cloud_of base_store) = (ExitJson true ∅, []).
Proof. reflexivity. Qed.


Lemma set_optional_lookup module keys kw key :
  set_optional module keys kw !! key
  = if bool_decide (key ∈ keys) && negb (is_none (param module key))
    then Some (param module key) else kw !! key.
Proof.
  unfold set_optional. revert kw. induction keys as [|k keys IH]; intros kw; simpl.
  - done.
  - rewrite IH. destruct (decide (key = k)) as [->|Hne].
    + rewrite (bool_decide_true (k ∈ k :: keys)) by left.
      destruct (bool_decide (k ∈ keys)); simpl;
        destruct (is_none (param module k)) eqn:E; simpl; try done.
      by rewrite lookup_insert_eq.
    + assert (bool_decide (key ∈ k :: keys) = bool_decide (key ∈ keys)) as ->.
      { apply bool_decide_ext. rewrite elem_of_cons. naive_solver. }
      destruct (bool_decide (key ∈ keys) && negb (is_none (param module key))); [done|].
      destruct (is_none (param module k)); [done|]. by rewrite lookup_insert_ne.
Qed.

Lemma resolve_all_strict get msg names ids f :
  for_in names ids (λ name ids,
    do obj <- get name;
    match obj with
    | None => fail_if true (Fmt msg name) (Ret (Return VNone))
    | Some obj => do i <- getitem obj "id"; Ret (Next (ids ++ [i]))
    end) = Ret f →
  ∃ ids', f = Next ids'.
Proof.
  revert ids. induction names as [|n names IH]; intros ids; simpl.
  - intros [= <-]. eauto.
  - unfold res_bind at 1. destruct (get n) as [[obj|]| | |]; simpl; try done.
    unfold getitem. destruct (obj !! "id"); simpl; try done. apply IH.
Qed.

Lemma port_chains_get_ids_strict module cloud v :
  os_sfc_port_chain._port_chains_get_ids module cloud true = Ret v →
  ∃ a b, v = VDict {[ "port_pair_groups" := VList a; "flow_classifiers" := VList b ]}.
Proof.
  unfold os_sfc_port_chain._port_chains_get_ids, os_sfc_port_chain.resolve_all, after_loop.
  destruct (truthy (param module "port_pair_groups")); simpl; [|done].
  destruct (py_iter (param module "port_pair_groups")) as [names| | |]; simpl; try done.
  unfold res_bind at 1.
  match goal with |- context [for_in names [] ?b] => destruct (for_in names [] b) as [f| | |] eqn:E end; try done.
  apply resolve_all_strict in E as [a ->].
  destruct (truthy (param module "flow_classifiers")); simpl; [|done].
  destruct (py_iter (param module "flow_classifiers")) as [names'| | |]; simpl; try done.
  unfold res_bind at 1.
  match goal with |- context [for_in names' [] ?b] => destruct (for_in names' [] b) as [f| | |] eqn:E end; try done.
  apply resolve_all_strict in E as [b ->].
  intros [= <-]. eauto.
Qed.

Lemma compose_port_chain_name module cloud pc_ids kw :
  os_sfc_port_chain._port_chains_get_ids module cloud true = Ret pc_ids →
  os_sfc_port_chain._compose_port_chain_args module pc_ids = Ret kw →
  is_none (param module "name") = false →
  kw !! "name" = Some (param module "name").
Proof.
  intros [a [b ->]]%port_chains_get_ids_strict Hkw Hname.
  unfold os_sfc_port_chain._compose_port_chain_args, after_loop,
    os_sfc_port_chain.optional_parameters in Hkw.
  simpl in Hkw. rewrite Hname in Hkw. simpl in Hkw.
  repeat (case_match; simplify_eq/=); by simplify_map_eq.
Qed.

Lemma lookup_by_name_Some get name o obj :
  lookup_by_name get name = Ret o → as_truthy o = Some obj → truthy name = true.
Proof.
  unfold lookup_by_name. destruct (truthy name); [done|]. by intros [= <-].
Qed.

Lemma truthy_not_none v : truthy v = true → is_none v = false.
Proof. by destruct v. Qed.

Lemma change_correlation_trace :
  (apply PortPair change_correlation (cloud_of base_store)).2
  = [Update PortPair (VStr "pp-id-1") change_correlation_payload].
Proof. vm_compute. reflexivity. Qed.

(** C4, as stated, fails: the update of scenario 5 carries the name. *)
Lemma name_in_update_payload :
  ¬ update_payloads_omit_name PortPair change_correlation (cloud_of base_store).
Proof.
  intros H.
  specialize (H PortPair (VStr "pp-id-1") change_correlation_payload).
  rewrite change_correlation_trace in H.
  specialize (H (list_elem_of_here _ _)). discriminate H.
Qed.

(** Every update call a module issues carries the [name] keyword, bound to
    the name the request supplied: the payload is built by the composer that
    also builds the create payload. *)
Lemma update_call_carries_name (k : sfc_kind) (module : ansible_module)
    (cloud : cloud) (k' : sfc_kind) (i : value) (kw : gmap string value) :
  Update k' i kw ∈ (apply k module cloud).2 →
  kw !! "name" = Some (param module "name") ∧ truthy (param module "name") = true.
Proof.
  assert (∀ get, ∀ o obj, lookup_by_name get (param module "name") = Ret o →
            as_truthy o = Some obj →
            truthy (param module "name") = true ∧ is_none (param module "name") = false)
    as Hname.
  { intros get o obj H1 H2. pose proof (lookup_by_name_Some _ _ _ _ H1 H2) as Ht.
    split; [done|]. by apply truthy_not_none. }
  destruct k; unfold_main; split_cases;
    rewrite ?elem_of_nil, ?list_elem_of_singleton; try done; intros [= -> -> ->];
    try match goal with
    | H1 : lookup_by_name _ _ = Ret _, H2 : as_truthy _ = Some _ |- _ =>
        destruct (Hname _ _ _ H1 H2) as [Ht Hn]
    end; (split; [|done]).
  all: first
    [ match goal with
      | H : os_sfc_port_pair_group.global _ _ = Ret _ |- _ => discriminate H
      end
    | by eauto using compose_port_chain_name
    | unfold os_sfc_port_pair._compose_port_pair_args;
      rewrite set_optional_lookup, Hn; done
    | unfold os_sfc_flow_classifier._compose_flow_classifier_args,
        os_sfc_flow_classifier.copy_if_in;
      split_cases; rewrite ?lookup_insert_ne by done;
      rewrite set_optional_lookup, Hn; done ].
Qed.

Lemma param_with_name module n key :
  key ≠ "name" → param (with_name module n) key = param module key.
Proof. intros H. unfold param, with_name. simpl. by rewrite lookup_insert_ne. Qed.

Lemma for_in_ext {X R S} (xs : list X) (s : S) (body body' : X → S → res (flow R S)) :
  (∀ x, x ∈ xs → ∀ s, body x s = body' x s) →
  for_in xs s body = for_in xs s body'.
Proof.
  revert s. induction xs as [|x xs IH]; intros s H; simpl; [done|].
  rewrite <- (H x) by apply list_elem_of_here.
  destruct (body x s) as [[r|s']| | |]; simpl; try done.
  apply IH. intros y Hy. apply H. by apply list_elem_of_further.
Qed.

Lemma after_loop_ext {X R S} (xs : list X) (s : S) (body body' : X → S → res (flow R S))
    (k k' : S → res R) :
  (∀ x, x ∈ xs → ∀ s, body x s = body' x s) → (∀ s, k s = k' s) →
  after_loop (for_in xs s body) k = after_loop (for_in xs s body') k'.
Proof.
  intros Hb Hk. unfold after_loop. rewrite (for_in_ext _ _ _ _ Hb).
  destruct (for_in xs s body') as [[r|s']| | |]; simpl; done.
Qed.

(** No [_needs_update] reads the name: each loop runs over a fixed list of
    keys that does not hold it. *)
Lemma needs_update_ignores_name (k : sfc_kind) (module : ansible_module) :
  decision_ignores_name k module.
Proof.
  intros n obj. destruct k; intros ids.
  3: { unfold os_sfc_port_pair_group._needs_update.
       destruct (py_set ids) as [wanted| | |]; cbn [res_bind]; try done.
       destruct (getitem obj "port_pairs") as [cur| | |]; cbn [res_bind]; try done.
       destruct (py_set cur) as [have| | |]; cbn [res_bind]; try done.
       destruct (set_ne wanted have); [done|].
       apply after_loop_ext; [|done].
       intros key Hin ?.
       assert (key ≠ "name") by (intros ->; revert Hin; clear; set_solver).
       by rewrite !param_with_name. }
  all: unfold os_sfc_flow_classifier._needs_update, os_sfc_port_pair._needs_update,
         os_sfc_port_chain._needs_update;
       repeat first
         [ apply after_loop_ext;
           [ intros key Hin ?;
             assert (key ≠ "name") by (intros ->; revert Hin; clear; set_solver);
             rewrite !param_with_name by done; reflexivity
           | intros ?; cbv beta ]
         | reflexivity ].
Qed.

(** C4, amended. Whenever a module updates an object that was found under
    its own name, the update call carries the [name] keyword, bound to the
    name the request supplied, which is the name the object has; and the
    needs-update decision of the module does not read the name. *)
Theorem update_payload_carries_name (k : sfc_kind) (module : ansible_module)
    (cloud : cloud) (obj : gmap string value)
    (k' : sfc_kind) (i : value) (kw : gmap string value) :
  get_current k module cloud = Ret (Some obj) →
  obj !! "name" = Some (param module "name") →
  Update k' i kw ∈ (apply k module cloud).2 →
  kw !! "name" = Some (param module "name")
  ∧ truthy (param module "name") = true
  ∧ kw !! "name" = obj !! "name"
  ∧ decision_ignores_name k module.
Proof.
  intros Hcur Hname Hin.
  destruct (update_call_carries_name k module cloud k' i kw Hin) as [Hkw Ht].
  repeat split; [done..| |apply needs_update_ignores_name].
  by rewrite Hkw, Hname.
Qed.

Lemma update_payload_carries_name_witness :
  change_correlation_payload !! "name" = Some (param change_correlation "name")
  ∧ truthy (param change_correlation "name") = true
  ∧ change_correlation_payload !! "name" = mpls_port_pair !! "name"
  ∧ decision_ignores_name PortPair change_correlation.
Proof.
  apply (update_payload_carries_name PortPair change_correlation (cloud_of base_store)
           mpls_port_pair PortPair (VStr "pp-id-1")); [reflexivity..|].
  rewrite change_correlation_trace. apply list_elem_of_here.
Defined.

Lemma set_ne_spec (a b : list value) : set_ne a b = false ↔ ∀ x, x ∈ a ↔ x ∈ b.
Proof.
  unfold set_ne. rewrite negb_false_iff, andb_true_iff, !forallb_forall.
  split.
  - intros [H1 H2] x. split; intros Hx.
    + apply list_elem_of_In, H1, bool_decide_eq_true in Hx. done.
    + apply list_elem_of_In, H2, bool_decide_eq_true in Hx. done.
  - intros H. split; intros x Hx%list_elem_of_In; apply bool_decide_eq_true, H, Hx.
Qed.

Lemma set_ne_Permutation (a a' b : list value) : a ≡ₚ a' → set_ne a b = set_ne a' b.
Proof.
  intros Hp. destruct (set_ne a' b) eqn:E.
  - apply not_false_iff_true. rewrite set_ne_spec. apply not_false_iff_true in E.
    rewrite set_ne_spec in E. intros H. apply E. intros x. rewrite <- Hp. apply H.
  - rewrite set_ne_spec in *. intros x. rewrite Hp. apply E.
Qed.

Lemma forallb_hashable_Permutation (a a' : list value) :
  a ≡ₚ a' → forallb hashable a = forallb hashable a'.
Proof.
  intros Hp. apply eq_true_iff_eq. rewrite !forallb_forall.
  split; intros H x Hx%list_elem_of_In; apply H, list_elem_of_In;
    [by rewrite Hp | by rewrite <- Hp].
Qed.

(** X18. The port pair group decision depends on the resolved ids only through
    their set: a permutation of the ids leaves it unchanged. *)
Lemma port_pair_group_needs_update_Permutation module ppg (ids ids' : list value) :
  ids ≡ₚ ids' →
  os_sfc_port_pair_group._needs_update module ppg (VList ids)
  = os_sfc_port_pair_group._needs_update module ppg (VList ids').
Proof.
  intros Hp. unfold os_sfc_port_pair_group._needs_update, py_set. simpl.
  rewrite (forallb_hashable_Permutation _ _ Hp).
  destruct (forallb hashable ids'); simpl; [|done].
  destruct (getitem ppg "port_pairs") as [cur| | |]; simpl; try done.
  destruct (py_iter cur) as [have| | |]; simpl; try done.
  destruct (forallb hashable have); simpl; [|done].
  by rewrite (set_ne_Permutation _ _ _ Hp).
Qed.

(** X17. With the same set of ids on the group and no group parameters asked for,
    the group needs no update. *)
Lemma port_pair_group_same_set module ppg (ids cur : list value) :
  ppg !! "port_pairs" = Some (VList cur) →
  forallb hashable ids = true → forallb hashable cur = true →
  (∀ x, x ∈ ids ↔ x ∈ cur) →
  param module "port_pair_group_parameters" = VNone →
  os_sfc_port_pair_group._needs_update module ppg (VList ids) = Ret false.
Proof.
  intros Hcur Hh Hh' Hset Hp.
  unfold os_sfc_port_pair_group._needs_update, py_set, getitem. simpl.
  rewrite Hh, Hcur. simpl. rewrite Hh'. simpl.
  apply set_ne_spec in Hset as ->.
  unfold after_loop, os_sfc_port_pair_group.compare_dict. simpl. by rewrite Hp.
Qed.

(** X27. In the port chain module the comparison of a supplied list raises
    [AttributeError] as soon as it is reached. *)
Lemma port_chain_list_compare_raises module pc ids cid cur :
  pc !! "chain_id" = Some cid → ids !! "chain_id" = None →
  (param module "chain_id" = VNone ∨ param module "chain_id" = cid) →
  pc !! "port_pair_groups" = Some cur →
  param module "port_pair_groups" ≠ VNone →
  os_sfc_port_chain._needs_update module pc (VDict ids) = Raise (AttributeError "param").
Proof.
  intros Hcid Hi Hsame Hppg Hgiven.
  unfold os_sfc_port_chain._needs_update, after_loop, getitem,
    os_sfc_port_chain.compare_simple, os_sfc_port_chain.compare_list.
  simpl. rewrite Hcid, Hi. simpl.
  assert (negb (is_none (param module "chain_id")) && py_ne (param module "chain_id") cid = false)
    as ->.
  { destruct Hsame as [-> | ->]; [done|]. unfold py_ne. rewrite bool_decide_true by done.
    by rewrite andb_false_r. }
  simpl. rewrite Hppg. simpl.
  destruct (param module "port_pair_groups"); done.
Qed.

(** C1. Reordering the port pairs of a group leaves it unchanged, but the
    same invocation on a port chain, with the references resolved to the ids
    the chain already holds, raises [AttributeError] in the list comparison
    instead of reporting [changed=false]. *)
Theorem reordered_references :
  changed_of (apply PortPairGroup reordered_group (cloud_of chain_store)) = Some false
  ∧ os_sfc_port_chain._port_chains_get_ids reordered_chain (cloud_of chain_store) true
    = Ret (VDict (dict [("port_pair_groups", VList [VStr "ppg-id-2"; VStr "ppg-id-1"]);
                        ("flow_classifiers", VList [VStr "fc-id-1"])]))
  ∧ get_current PortChain reordered_chain (cloud_of chain_store) = Ret (Some pc1)
  ∧ apply PortChain reordered_chain (cloud_of chain_store)
    = (Raise (AttributeError "param"), []).
Proof. repeat split; vm_compute; reflexivity. Qed.

(** C5. A port chain whose [chain_parameters] equal the ones asked for does
    not get the decision [false]: through [main] the list comparison raises
    first, and [_needs_update] on its own, with no list supplied, compares
    the parameters with the last list read and answers [true]. *)
Theorem chain_parameters_compare :
  apply PortChain same_chain_parameters (cloud_of chain_store)
  = (Raise (AttributeError "param"), [])
  ∧ pc1 !! "chain_parameters" = Some (param only_chain_parameters "chain_parameters")
  ∧ os_sfc_port_chain._needs_update only_chain_parameters pc1
      (VDict (dict [("port_pair_groups", VList []); ("flow_classifiers", VList [])]))
    = Ret true.
Proof. repeat split; vm_compute; reflexivity. Qed.

(** The scalar loop of the flow classifier and port pair modules, over an
    object that has every compared field: it returns [True] or falls
    through. *)
Lemma scalar_loop_total module (obj ports : gmap string value) keys :
  Forall (λ key, is_Some (obj !! key)) keys →
  let loop := for_in (R := bool) keys tt (λ key _,
       do cur <- getitem obj key;
       let value := default cur (ports !! key) in
       if negb (is_none (param module key)) && py_ne (param module key) value
       then Ret (Return true) else Ret (Next tt)) in
  loop = Ret (Return true) ∨ loop = Ret (Next tt).
Proof.
  induction 1 as [|key keys [v Hv] _ IH]; cbv zeta in *; simpl; [by right|].
  unfold getitem in *. rewrite Hv. simpl.
  destruct (negb (is_none (param module key)) && py_ne (param module key) _); simpl;
    [by left | apply IH].
Qed.

Lemma py_ne_true (a b : value) : a ≠ b → py_ne a b = true.
Proof. intros H. unfold py_ne. by rewrite bool_decide_false. Qed.

Lemma is_none_false (v : value) : v ≠ VNone → is_none v = false.
Proof. by destruct v. Qed.

Lemma is_none_true (v : value) : is_none v = true → v = VNone.
Proof. by destruct v. Qed.

Lemma py_ne_false (a b : value) : py_ne a b = false → a = b.
Proof. unfold py_ne. intros H%negb_false_iff. by apply bool_decide_eq_true in H. Qed.

(** The dictionary loop shared by the flow classifier, port pair and port
    pair group modules. *)
Lemma dict_loop_differs module (obj : gmap string value) key cur :
  obj !! key = Some cur → param module key ≠ VNone → param module key ≠ cur →
  after_loop (for_in [key] tt (λ key _,
       if is_none (param module key) then Ret (Next tt)
       else
         do cur <- getitem obj key;
         if py_ne (param module key) cur then Ret (Return true) else Ret (Next tt)))
    (λ _, Ret false) = Ret true.
Proof.
  intros Hcur Hg Hd. unfold after_loop, getitem. simpl.
  by rewrite (is_none_false _ Hg), Hcur; simpl; rewrite (py_ne_true _ _ Hd).
Qed.

Lemma dict_loop_same module (obj : gmap string value) key :
  after_loop (for_in [key] tt (λ key _,
       if is_none (param module key) then Ret (Next tt)
       else
         do cur <- getitem obj key;
         if py_ne (param module key) cur then Ret (Return true) else Ret (Next tt)))
    (λ _, Ret false) = Ret false →
  param module key = VNone ∨ obj !! key = Some (param module key).
Proof.
  unfold after_loop, getitem. simpl.
  destruct (is_none (param module key)) eqn:E; [left; by apply is_none_true|].
  destruct (obj !! key) as [cur|]; simpl; [|done].
  destruct (py_ne (param module key) cur) eqn:E'; simpl; [done|].
  apply py_ne_false in E' as <-. by right.
Qed.

(** X24. The dictionary rule in the three modules that compare a dictionary field
    with the current object's field: a supplied value that differs gives
    [True], and the decision [False] means the value was not supplied or is
    the current one. *)
Lemma dict_field_differs_needs_update module (obj ports : gmap string value) cur :
  (Forall (λ key, is_Some (obj !! key)) os_sfc_flow_classifier.compare_simple →
   obj !! "l7_parameters" = Some cur →
   param module "l7_parameters" ≠ VNone → param module "l7_parameters" ≠ cur →
   os_sfc_flow_classifier._needs_update module obj ports = Ret true)
  ∧ (Forall (λ key, is_Some (obj !! key)) os_sfc_port_pair.compare_simple →
     obj !! "service_function_parameters" = Some cur →
     param module "service_function_parameters" ≠ VNone →
     param module "service_function_parameters" ≠ cur →
     os_sfc_port_pair._needs_update module obj ports = Ret true)
  ∧ (∀ ids have, obj !! "port_pairs" = Some (VList have) →
     forallb hashable ids = true → forallb hashable have = true →
     obj !! "port_pair_group_parameters" = Some cur →
     param module "port_pair_group_parameters" ≠ VNone →
     param module "port_pair_group_parameters" ≠ cur →
     os_sfc_port_pair_group._needs_update module obj (VList ids) = Ret true).
Proof.
  split; [|split].
  - intros Hall Hcur Hg Hd. unfold os_sfc_flow_classifier._needs_update.
    unfold after_loop at 1.
    pose proof (scalar_loop_total module obj ports _ Hall) as Hl.
    cbv zeta in Hl |- *. destruct Hl as [-> | ->]; simpl; [done|].
    by apply (dict_loop_differs _ _ _ cur).
  - intros Hall Hcur Hg Hd. unfold os_sfc_port_pair._needs_update.
    unfold after_loop at 1.
    pose proof (scalar_loop_total module obj ports _ Hall) as Hl.
    cbv zeta in Hl |- *. destruct Hl as [-> | ->]; simpl; [done|].
    by apply (dict_loop_differs _ _ _ cur).
  - intros ids have Hpp Hh Hh' Hcur Hg Hd.
    unfold os_sfc_port_pair_group._needs_update, py_set. simpl. rewrite Hh. simpl.
    unfold getitem at 1. rewrite Hpp. simpl. rewrite Hh'. simpl.
    destruct (set_ne ids have); [done|]. by apply (dict_loop_differs _ _ _ cur).
Qed.

Lemma after_loop_false {S} (loop : res (flow bool S)) (k : S → res bool) :
  after_loop loop k = Ret false →
  loop = Ret (Return false) ∨ ∃ s, loop = Ret (Next s) ∧ k s = Ret false.
Proof.
  unfold after_loop. destruct loop as [[r|s]| | |]; simpl; try done.
  - intros [= ->]. by left.
  - intros H. right. eauto.
Qed.

(** A loop whose body only ever returns [True] does not return [False]. *)
Lemma for_in_no_false {X S} (xs : list X) (s : S) (body : X → S → res (flow bool S)) :
  (∀ x s, body x s ≠ Ret (Return false)) →
  for_in xs s body ≠ Ret (Return false).
Proof.
  intros Hb. revert s. induction xs as [|x xs IH]; intros s; simpl; [done|].
  specialize (Hb x s). destruct (body x s) as [[[]|s']| | |]; simpl; done.
Qed.

(** X25. The converse for the same three modules: the decision [False] means
    that the dictionary field was not supplied or equals the current one. *)
Lemma dict_field_unchanged module (obj ports : gmap string value) ids :
  (os_sfc_flow_classifier._needs_update module obj ports = Ret false →
   param module "l7_parameters" = VNone
   ∨ obj !! "l7_parameters" = Some (param module "l7_parameters"))
  ∧ (os_sfc_port_pair._needs_update module obj ports = Ret false →
     param module "service_function_parameters" = VNone
     ∨ obj !! "service_function_parameters"
       = Some (param module "service_function_parameters"))
  ∧ (os_sfc_port_pair_group._needs_update module obj ids = Ret false →
     param module "port_pair_group_parameters" = VNone
     ∨ obj !! "port_pair_group_parameters"
       = Some (param module "port_pair_group_parameters")).
Proof.
  split; [|split].
  - unfold os_sfc_flow_classifier._needs_update.
    intros [H | [[] [_ H]]]%after_loop_false; [|by apply dict_loop_same in H].
    exfalso. revert H. apply for_in_no_false. intros x s.
    destruct (getitem obj x); simpl; try done. by case_match.
  - unfold os_sfc_port_pair._needs_update.
    intros [H | [[] [_ H]]]%after_loop_false; [|by apply dict_loop_same in H].
    exfalso. revert H. apply for_in_no_false. intros x s.
    destruct (getitem obj x); simpl; try done. by case_match.
  - unfold os_sfc_port_pair_group._needs_update.
    destruct (py_set ids); simpl; try done.
    destruct (getitem obj "port_pairs"); simpl; try done.
    destruct (py_set _); simpl; try done.
    destruct (set_ne _ _); [done|]. apply dict_loop_same.
Qed.

Lemma chain_without_classifiers_result :
  apply PortChain chain_without_classifiers (cloud_of base_store)
  = (FailJson (Fmt "Specified port pair group `%s' wat not found." (VStr "nope")), []).
Proof. reflexivity. Qed.

(** C6, as stated, fails: with a group that does not resolve, the chain
    without flow classifiers fails with the not-found error of the group. *)
Lemma unresolved_group_reported_first :
  ¬ fails_missing_required PortChain "flow_classifiers" chain_without_classifiers
      (cloud_of base_store).
Proof.
  intros [msg [H Hm]]. rewrite chain_without_classifiers_result in H.
  injection H as <-. discriminate Hm.
Qed.

Lemma resolve_all_strict_aborts get msg names :
  (∀ n, (∃ o, get n = Ret o) ∨ aborts (get n)) →
  (∃ ids, os_sfc_port_chain.resolve_all get true msg names = Ret (Next ids))
  ∨ aborts (os_sfc_port_chain.resolve_all get true msg names).
Proof.
  intros Hget. unfold os_sfc_port_chain.resolve_all.
  set (body := λ (name : value) (ids : list value), _).
  generalize (@nil value) as ids.
  induction names as [|n names IH]; intros ids; simpl; [eauto|].
  unfold body at 1 3.
  destruct (Hget n) as [[o ->] | Ha]; simpl.
  - destruct o as [obj|]; simpl; [|by right].
    unfold getitem. destruct (obj !! "id"); simpl; [apply IH | by right].
  - destruct (get n); simpl in *; try done; by right.
Qed.

Lemma of_cloud_total {A} (r : string + A) : (∃ a, of_cloud r = Ret a) ∨ aborts (of_cloud r).
Proof. destruct r; simpl; eauto. Qed.

Lemma py_iter_total v : (∃ l, py_iter v = Ret l) ∨ aborts (py_iter v).
Proof. destruct v; simpl; eauto. Qed.

Lemma port_chains_get_ids_aborts module cloud :
  truthy (param module "port_pair_groups") = false
  ∨ truthy (param module "flow_classifiers") = false →
  aborts (os_sfc_port_chain._port_chains_get_ids module cloud true).
Proof.
  intros H.
  unfold os_sfc_port_chain._port_chains_get_ids.
  destruct (truthy (param module "port_pair_groups")) eqn:E1; simpl; [|done].
  destruct H as [|E2]; [done|]. rewrite E2. simpl.
  destruct (py_iter_total (param module "port_pair_groups")) as [[names ->] | Ha]; simpl;
    [|by destruct (py_iter _)].
  unfold after_loop.
  destruct (resolve_all_strict_aborts (get_sfc_port_pair_group cloud)
              "Specified port pair group `%s' wat not found." names
              (λ n, of_cloud_total _)) as [[ids' ->] | Ha]; simpl; [done|].
  by destruct (os_sfc_port_chain.resolve_all _ _ _ _).
Qed.

Lemma port_pairs_get_ids_missing module cloud :
  truthy (param module "port_pairs") = false →
  os_sfc_port_pair_group._port_pairs_get_ids module cloud true
  = FailJson (Msg "Parameter 'port_pairs' is required in Sfc Port Pair Group Create").
Proof. intros H. unfold os_sfc_port_pair_group._port_pairs_get_ids. by rewrite H. Qed.

Lemma port_chains_get_ids_missing_groups module cloud :
  truthy (param module "port_pair_groups") = false →
  os_sfc_port_chain._port_chains_get_ids module cloud true
  = FailJson (Msg "Parameter 'port_pair_groups' is required in Sfc Port Chain Create").
Proof. intros H. unfold os_sfc_port_chain._port_chains_get_ids. by rewrite H. Qed.

Lemma port_chains_get_ids_missing_classifiers module cloud names ids :
  param module "port_pair_groups" = VList names → names ≠ [] →
  os_sfc_port_chain.resolve_all (get_sfc_port_pair_group cloud) true
    "Specified port pair group `%s' wat not found." names = Ret (Next ids) →
  truthy (param module "flow_classifiers") = false →
  os_sfc_port_chain._port_chains_get_ids module cloud true
  = FailJson (Msg "Parameter 'flow_classifiers' is required in Sfc Port Chain Create").
Proof.
  intros Hn Hne Hr Hf. unfold os_sfc_port_chain._port_chains_get_ids.
  rewrite Hn. simpl. rewrite bool_decide_false by done. simpl.
  unfold after_loop at 1. rewrite Hr. simpl. by rewrite Hf.
Qed.

Lemma get_current_cases k module cloud :
  (∃ o, get_current k module cloud = Ret o)
  ∨ (∃ msg, get_current k module cloud = Raise (OpenStackCloudException msg)).
Proof.
  unfold get_current, lookup_by_name. destruct (truthy _); [|eauto].
  destruct (cloud_get _ _ _); simpl; eauto.
Qed.

(** An invocation for [state=present] outside check mode whose reference
    resolution aborts issues no call and does not exit normally. *)
Lemma present_aborts_in_resolution k module cloud :
  state module = present → check_mode module = false →
  match k with
  | FlowClassifier => aborts (os_sfc_flow_classifier._ports_get_ids module cloud false)
  | PortPair => aborts (os_sfc_port_pair._ports_get_ids module cloud true)
  | PortPairGroup => aborts (os_sfc_port_pair_group._port_pairs_get_ids module cloud true)
  | PortChain => aborts (os_sfc_port_chain._port_chains_get_ids module cloud true)
  end →
  (apply k module cloud).2 = [] ∧ changed_of (apply k module cloud) = None.
Proof.
  intros Hs Hc Ha. unfold changed_of.
  destruct k; fold_current; unfold_main; rewrite Hs, Hc; simpl;
    match goal with |- context [get_current ?k' _ _] =>
      destruct (get_current_cases k' module cloud) as [[o ->] | [msg ->]]
    end; simpl; try done;
    match type of Ha with aborts ?r => destruct r as [?| | |[]] end; done.
Qed.

(** When the current object was looked up, the failure of the resolution is
    the failure of the invocation. *)
Lemma present_fails_in_resolution k module cloud o msg :
  state module = present → check_mode module = false →
  get_current k module cloud = Ret o →
  match k with
  | FlowClassifier => os_sfc_flow_classifier._ports_get_ids module cloud false = FailJson msg
  | PortPair => os_sfc_port_pair._ports_get_ids module cloud true = FailJson msg
  | PortPairGroup =>
      os_sfc_port_pair_group._port_pairs_get_ids module cloud true = FailJson msg
  | PortChain => os_sfc_port_chain._port_chains_get_ids module cloud true = FailJson msg
  end →
  apply k module cloud = (FailJson msg, []).
Proof.
  intros Hs Hc Hcur Hf.
  destruct k; fold_current; unfold_main; rewrite Hs, Hc, Hcur; simpl; by rewrite Hf.
Qed.

(** C6, amended. For [state=present] outside check mode, when a required
    list reference ([port_pairs] of a group; [port_pair_groups] or
    [flow_classifiers] of a chain) is empty or absent, the invocation issues
    no call and does not exit normally.  It fails with the
    missing-required-field error of that field whenever what runs before
    the check succeeded: the lookup of the current object and, for
    [flow_classifiers], the resolution of every port pair group. *)
Theorem missing_required_list_fails (module : ansible_module) (cloud : cloud) :
  state module = present → check_mode module = false →
  (truthy (param module "port_pairs") = false →
   (apply PortPairGroup module cloud).2 = []
   ∧ changed_of (apply PortPairGroup module cloud) = None
   ∧ ∀ ppg, get_current PortPairGroup module cloud = Ret ppg →
       apply PortPairGroup module cloud
       = (FailJson (Msg "Parameter 'port_pairs' is required in Sfc Port Pair Group Create"),
          []))
  ∧ (truthy (param module "port_pair_groups") = false →
     (apply PortChain module cloud).2 = []
     ∧ changed_of (apply PortChain module cloud) = None
     ∧ ∀ pc, get_current PortChain module cloud = Ret pc →
         apply PortChain module cloud
         = (FailJson (Msg "Parameter 'port_pair_groups' is required in Sfc Port Chain Create"),
            []))
  ∧ (truthy (param module "flow_classifiers") = false →
     (apply PortChain module cloud).2 = []
     ∧ changed_of (apply PortChain module cloud) = None
     ∧ ∀ pc names ids,
         get_current PortChain module cloud = Ret pc →
         param module "port_pair_groups" = VList names → names ≠ [] →
         os_sfc_port_chain.resolve_all (get_sfc_port_pair_group cloud) true
           "Specified port pair group `%s' wat not found." names = Ret (Next ids) →
         apply PortChain module cloud
         = (FailJson (Msg "Parameter 'flow_classifiers' is required in Sfc Port Chain Create"),
            [])).
Proof.
  intros Hs Hc. split; [|split]; intros Hm.
  - pose proof (port_pairs_get_ids_missing module cloud Hm) as Hf.
    destruct (present_aborts_in_resolution PortPairGroup module cloud Hs Hc) as [? ?];
      [simpl; by rewrite Hf|].
    repeat split; [done..|]. intros ppg Hcur.
    by apply (present_fails_in_resolution PortPairGroup _ _ ppg).
  - pose proof (port_chains_get_ids_missing_groups module cloud Hm) as Hf.
    destruct (present_aborts_in_resolution PortChain module cloud Hs Hc) as [? ?];
      [simpl; by rewrite Hf|].
    repeat split; [done..|]. intros pc Hcur.
    by apply (present_fails_in_resolution PortChain _ _ pc).
  - destruct (present_aborts_in_resolution PortChain module cloud Hs Hc) as [? ?];
      [simpl; apply port_chains_get_ids_aborts; by right|].
    repeat split; [done..|]. intros pc names ids Hcur Hn Hne Hr.
    apply (present_fails_in_resolution PortChain _ _ pc); [done..|].
    by apply (port_chains_get_ids_missing_classifiers _ _ names ids).
Qed.

Lemma missing_required_list_fails_witness :
  apply PortChain chain_without_classifiers_resolved (cloud_of group_store)
  = (FailJson (Msg "Parameter 'flow_classifiers' is required in Sfc Port Chain Create"), []).
Proof.
  destruct (missing_required_list_fails chain_without_classifiers_resolved
              (cloud_of group_store) eq_refl eq_refl) as (_ & _ & H).
  destruct (H eq_refl) as (_ & _ & H').
  apply (H' None [VStr "ppg1"] [VStr "ppg-id-1"]); [reflexivity..|done|reflexivity].
Defined.

Lemma unknown_ingress_result :
  apply PortPair unknown_ingress (cloud_of base_store)
  = (FailJson (Msg "Specified ingress port was not found."), []).
Proof. reflexivity. Qed.

(** C7, as stated, fails: the message for the ingress port names the field
    but not the value that did not resolve. *)
Lemma ingress_value_not_named :
  ¬ fails_naming PortPair "ingress" "port9" unknown_ingress (cloud_of base_store).
Proof.
  intros [msg (H & _ & Hv)]. rewrite unknown_ingress_result in H.
  injection H as <-. vm_compute in Hv. discriminate Hv.
Qed.

Lemma for_in_app {X R S} (xs ys : list X) (s : S) (body : X → S → res (flow R S)) :
  for_in (xs ++ ys) s body
  = do f <- for_in xs s body;
    match f with
    | Return r => Ret (Return r)
    | Next s' => for_in ys s' body
    end.
Proof.
  revert s. induction xs as [|x xs IH]; intros s; simpl; [done|].
  destruct (body x s) as [[r|s']| | |]; simpl; done.
Qed.

(** The port pair group resolution stops at the first name that does not
    resolve. *)
Lemma port_pairs_get_ids_not_found module cloud before name after ids :
  param module "port_pairs" = VList (before ++ name :: after) →
  Forall2 (λ n i, ∃ pp, get_sfc_port_pair cloud n = Ret (Some pp) ∧ pp !! "id" = Some i)
    before ids →
  get_sfc_port_pair cloud name = Ret None →
  os_sfc_port_pair_group._port_pairs_get_ids module cloud true
  = FailJson (Fmt "Specified port pair `%s' was not found." name).
Proof.
  intros Hp Hres Hnone. unfold os_sfc_port_pair_group._port_pairs_get_ids.
  rewrite Hp. clear Hp. simpl. rewrite bool_decide_false by (by destruct before). simpl.
  unfold after_loop. rewrite for_in_app.
  set (body := λ (pp_name : value) (port_pairs : list value), _).
  assert (∀ acc, for_in before acc body = Ret (Next (acc ++ ids))) as ->.
  { induction Hres as [|n i before ids (pp & Hn & Hi) _ IH]; intros acc; simpl.
    - by rewrite app_nil_r.
    - unfold body at 1. rewrite Hn. simpl. unfold getitem. rewrite Hi. simpl.
      rewrite IH. by rewrite <- app_assoc. }
  simpl. unfold body at 1. by rewrite Hnone.
Qed.

Lemma port_chains_get_ids_not_found module cloud before name after ids :
  param module "port_pair_groups" = VList (before ++ name :: after) →
  Forall2 (λ n i, ∃ ppg, get_sfc_port_pair_group cloud n = Ret (Some ppg)
                         ∧ ppg !! "id" = Some i) before ids →
  get_sfc_port_pair_group cloud name = Ret None →
  os_sfc_port_chain._port_chains_get_ids module cloud true
  = FailJson (Fmt "Specified port pair group `%s' wat not found." name).
Proof.
  intros Hp Hres Hnone. unfold os_sfc_port_chain._port_chains_get_ids.
  rewrite Hp. clear Hp. simpl. rewrite bool_decide_false by (by destruct before). simpl.
  unfold after_loop at 1. unfold os_sfc_port_chain.resolve_all. rewrite for_in_app.
  set (body := λ (name : value) (ids : list value), _).
  assert (∀ acc, for_in before acc body = Ret (Next (acc ++ ids))) as ->.
  { induction Hres as [|n i before ids (pp & Hn & Hi) _ IH]; intros acc; simpl.
    - by rewrite app_nil_r.
    - unfold body at 1. rewrite Hn. simpl. unfold getitem. rewrite Hi. simpl.
      rewrite IH. by rewrite <- app_assoc. }
  simpl. unfold body at 1. by rewrite Hnone.
Qed.

(** The port chain resolution, once every port pair group resolved, stops at
    the first flow classifier that does not resolve. *)
Lemma port_chains_get_ids_classifier_not_found module cloud groups gids
    before name after ids :
  param module "port_pair_groups" = VList groups → groups ≠ [] →
  Forall2 (λ n i, ∃ ppg, get_sfc_port_pair_group cloud n = Ret (Some ppg)
                         ∧ ppg !! "id" = Some i) groups gids →
  param module "flow_classifiers" = VList (before ++ name :: after) →
  Forall2 (λ n i, ∃ fc, get_sfc_flow_classifier cloud n = Ret (Some fc)
                        ∧ fc !! "id" = Some i) before ids →
  get_sfc_flow_classifier cloud name = Ret None →
  os_sfc_port_chain._port_chains_get_ids module cloud true
  = FailJson (Fmt "Specified port pair group `%s' wat not found." name).
Proof.
  intros Hg Hgne Hgs Hf Hres Hnone.
  assert (∀ get msg names found,
            Forall2 (λ n i, ∃ obj, get n = Ret (Some obj) ∧ obj !! "id" = Some i)
              names found →
            ∀ acc, for_in (R := value) names acc (λ name ids,
                     do obj <- get name;
                     match obj with
                     | None => fail_if true (Fmt msg name) (Ret (Return VNone))
                     | Some obj => do i <- getitem obj "id"; Ret (Next (ids ++ [i]))
                     end) = Ret (Next (acc ++ found))) as Hloop.
  { intros get msg names found H.
    induction H as [|n i names found (obj & Hn & Hi) _ IH]; intros acc; simpl.
    - by rewrite app_nil_r.
    - rewrite Hn. simpl. unfold getitem. rewrite Hi. simpl.
      rewrite IH. by rewrite <- app_assoc. }
  unfold os_sfc_port_chain._port_chains_get_ids.
  rewrite Hg, Hf. cbn [truthy]. rewrite !bool_decide_false by (by destruct before).
  cbn [negb py_iter res_bind]. unfold after_loop, os_sfc_port_chain.resolve_all.
  rewrite (Hloop _ _ _ _ Hgs). cbn [res_bind]. rewrite for_in_app.
  rewrite (Hloop _ _ _ _ Hres). simpl. by rewrite Hnone.
Qed.

Lemma ports_get_ids_ingress_not_found module cloud :
  truthy (param module "ingress") = true → truthy (param module "egress") = true →
  get_port cloud (param module "ingress") = Ret None →
  os_sfc_port_pair._ports_get_ids module cloud true
  = FailJson (Msg "Specified ingress port was not found.").
Proof.
  intros Hi He Hn. unfold os_sfc_port_pair._ports_get_ids, os_sfc_port_pair.require_param,
    os_sfc_port_pair.resolve_port.
  by rewrite Hi, He, Hn.
Qed.

Lemma ports_get_ids_egress_not_found module cloud port i :
  truthy (param module "ingress") = true → truthy (param module "egress") = true →
  get_port cloud (param module "ingress") = Ret (Some port) → port !! "id" = Some i →
  get_port cloud (param module "egress") = Ret None →
  os_sfc_port_pair._ports_get_ids module cloud true
  = FailJson (Msg "Specified egress port was not found.").
Proof.
  intros Hi He Hp Hid Hn. unfold os_sfc_port_pair._ports_get_ids,
    os_sfc_port_pair.require_param, os_sfc_port_pair.resolve_port, getitem.
  rewrite Hi, He, Hp. simpl. rewrite Hid. simpl. by rewrite Hn.
Qed.

(** C7, amended. For [state=present] outside check mode, once the current
    object was looked up, a required reference whose lookup returns none
    makes the invocation fail with a not-found message, and no call is
    issued.  For the ingress and egress port of a port pair (both supplied)
    the message is a fixed text naming the field, not the value; for an
    element of [port_pairs] or [port_pair_groups] it is a template naming the
    kind, with the first unresolved element as its argument; for an element
    of the [flow_classifiers] of a port chain, the port pair groups having
    resolved, it is a template with the first unresolved element as its
    argument. *)
Theorem unresolved_reference_fails (module : ansible_module) (cloud : cloud) :
  state module = present → check_mode module = false →
  (∀ pp, get_current PortPair module cloud = Ret pp →
     truthy (param module "ingress") = true → truthy (param module "egress") = true →
     get_port cloud (param module "ingress") = Ret None →
     apply PortPair module cloud
     = (FailJson (Msg "Specified ingress port was not found."), []))
  ∧ (∀ pp port i, get_current PortPair module cloud = Ret pp →
     truthy (param module "ingress") = true → truthy (param module "egress") = true →
     get_port cloud (param module "ingress") = Ret (Some port) → port !! "id" = Some i →
     get_port cloud (param module "egress") = Ret None →
     apply PortPair module cloud
     = (FailJson (Msg "Specified egress port was not found."), []))
  ∧ (∀ ppg before name after ids, get_current PortPairGroup module cloud = Ret ppg →
     param module "port_pairs" = VList (before ++ name :: after) →
     Forall2 (λ n i, ∃ pp, get_sfc_port_pair cloud n = Ret (Some pp) ∧ pp !! "id" = Some i)
       before ids →
     get_sfc_port_pair cloud name = Ret None →
     apply PortPairGroup module cloud
     = (FailJson (Fmt "Specified port pair `%s' was not found." name), []))
  ∧ (∀ pc before name after ids, get_current PortChain module cloud = Ret pc →
     param module "port_pair_groups" = VList (before ++ name :: after) →
     Forall2 (λ n i, ∃ ppg, get_sfc_port_pair_group cloud n = Ret (Some ppg)
                            ∧ ppg !! "id" = Some i) before ids →
     get_sfc_port_pair_group cloud name = Ret None →
     apply PortChain module cloud
     = (FailJson (Fmt "Specified port pair group `%s' wat not found." name), []))
  ∧ (∀ pc groups gids before name after ids,
     get_current PortChain module cloud = Ret pc →
     param module "port_pair_groups" = VList groups → groups ≠ [] →
     Forall2 (λ n i, ∃ ppg, get_sfc_port_pair_group cloud n = Ret (Some ppg)
                            ∧ ppg !! "id" = Some i) groups gids →
     param module "flow_classifiers" = VList (before ++ name :: after) →
     Forall2 (λ n i, ∃ fc, get_sfc_flow_classifier cloud n = Ret (Some fc)
                           ∧ fc !! "id" = Some i) before ids →
     get_sfc_flow_classifier cloud name = Ret None →
     ∃ template, apply PortChain module cloud = (FailJson (Fmt template name), [])).
Proof.
  intros Hs Hc. split; [|split; [|split; [|split]]].
  - intros pp Hcur Hi He Hn.
    apply (present_fails_in_resolution PortPair _ _ pp); [done..|].
    by apply ports_get_ids_ingress_not_found.
  - intros pp port i Hcur Hi He Hp Hid Hn.
    apply (present_fails_in_resolution PortPair _ _ pp); [done..|].
    by apply (ports_get_ids_egress_not_found _ _ port i).
  - intros ppg before name after ids Hcur Hp Hres Hn.
    apply (present_fails_in_resolution PortPairGroup _ _ ppg); [done..|].
    by apply (port_pairs_get_ids_not_found _ _ before name after ids).
  - intros pc before name after ids Hcur Hp Hres Hn.
    apply (present_fails_in_resolution PortChain _ _ pc); [done..|].
    by apply (port_chains_get_ids_not_found _ _ before name after ids).
  - intros pc groups gids before name after ids Hcur Hg Hgne Hgs Hf Hres Hn.
    eexists. apply (present_fails_in_resolution PortChain _ _ pc); [done..|].
    by apply (port_chains_get_ids_classifier_not_found _ _ groups gids before name after ids).
Qed.

Lemma unresolved_reference_fails_witness :
  apply PortPair unknown_ingress (cloud_of base_store)
  = (FailJson (Msg "Specified ingress port was not found."), [])
  ∧ apply PortPairGroup unknown_port_pair (cloud_of base_store)
    = (FailJson (Fmt "Specified port pair `%s' was not found." (VStr "pp9")), [])
  ∧ ∃ template, apply PortChain unknown_classifier (cloud_of chain_store)
                = (FailJson (Fmt template (VStr "fc9")), []).
Proof.
  split; [|split].
  - destruct (unresolved_reference_fails unknown_ingress (cloud_of base_store)
                eq_refl eq_refl) as (H & _).
    apply (H None); reflexivity.
  - destruct (unresolved_reference_fails unknown_port_pair (cloud_of base_store)
                eq_refl eq_refl) as (_ & _ & H & _).
    apply (H None [VStr "pp1"] (VStr "pp9") [] [VStr "pp-id-1"]); try reflexivity.
    constructor; [|constructor]. eexists. split; reflexivity.
  - destruct (unresolved_reference_fails unknown_classifier (cloud_of chain_store)
                eq_refl eq_refl) as (_ & _ & _ & _ & H).
    apply (H None [VStr "ppg1"; VStr "ppg2"] [VStr "ppg-id-1"; VStr "ppg-id-2"]
             [VStr "fc1"] (VStr "fc9") [] [VStr "fc-id-1"]); try reflexivity; try done;
      repeat constructor; eexists; split; reflexivity.
Defined.

(** C2, as stated, fails: a request without a name is never looked up, and
    creates the object again on the second run. *)
Lemma nameless_created_twice :
  ¬ changed_then_unchanged FlowClassifier nameless_classifier
      (cloud_of base_store) (cloud_of store_with_nameless).
Proof. intros [_ H]. vm_compute in H. discriminate H. Qed.

Lemma flow_classifier_ports_ext module c1 c2 f :
  cloud_get c2 Port = cloud_get c1 Port →
  os_sfc_flow_classifier._ports_get_ids module c2 f
  = os_sfc_flow_classifier._ports_get_ids module c1 f.
Proof.
  intros H. unfold os_sfc_flow_classifier._ports_get_ids,
    os_sfc_flow_classifier.resolve_port, get_port. by rewrite H.
Qed.

Lemma port_pair_ports_ext module c1 c2 f :
  cloud_get c2 Port = cloud_get c1 Port →
  os_sfc_port_pair._ports_get_ids module c2 f = os_sfc_port_pair._ports_get_ids module c1 f.
Proof.
  intros H. unfold os_sfc_port_pair._ports_get_ids, os_sfc_port_pair.resolve_port,
    get_port. by rewrite H.
Qed.

Lemma port_pairs_get_ids_ext module c1 c2 f :
  cloud_get c2 (Sfc PortPair) = cloud_get c1 (Sfc PortPair) →
  os_sfc_port_pair_group._port_pairs_get_ids module c2 f
  = os_sfc_port_pair_group._port_pairs_get_ids module c1 f.
Proof.
  intros H. unfold os_sfc_port_pair_group._port_pairs_get_ids, get_sfc_port_pair.
  by rewrite H.
Qed.

(** The scalar loop falls through when every supplied field equals the value
    it is compared with. *)
Lemma scalar_loop_same module (obj ports : gmap string value) keys :
  Forall (λ key, ∃ cur, obj !! key = Some cur
                        ∧ (param module key = VNone
                           ∨ param module key = default cur (ports !! key))) keys →
  for_in (R := bool) keys tt (λ key _,
       do cur <- getitem obj key;
       let value := default cur (ports !! key) in
       if negb (is_none (param module key)) && py_ne (param module key) value
       then Ret (Return true) else Ret (Next tt)) = Ret (Next tt).
Proof.
  induction 1 as [|key keys (cur & Hcur & Hsame) _ IH]; cbv zeta in *; simpl; [done|].
  unfold getitem in *. rewrite Hcur. simpl.
  assert (negb (is_none (param module key))
          && py_ne (param module key) (default cur (ports !! key)) = false) as ->; [|done].
  destruct Hsame as [-> | <-]; [done|]. unfold py_ne.
  rewrite bool_decide_true by done. by rewrite andb_false_r.
Qed.

Lemma dict_loop_unchanged module (obj : gmap string value) key :
  param module key = VNone ∨ obj !! key = Some (param module key) →
  after_loop (for_in [key] tt (λ key _,
       if is_none (param module key) then Ret (Next tt)
       else
         do cur <- getitem obj key;
         if py_ne (param module key) cur then Ret (Return true) else Ret (Next tt)))
    (λ _, Ret false) = Ret false.
Proof.
  intros H. unfold after_loop, getitem. simpl.
  destruct (is_none (param module key)) eqn:E; [done|].
  destruct H as [H | ->]; [by rewrite H in E|]. simpl.
  unfold py_ne. by rewrite bool_decide_true.
Qed.

Lemma nameless_second_run :
  changed_of (apply FlowClassifier nameless_classifier (cloud_of store_with_nameless))
  = Some true
  ∧ (apply FlowClassifier nameless_classifier (cloud_of store_with_nameless)).2
    = [Create FlowClassifier (dict [("source_ip_prefix", VStr "10.20.0.0/24");
                                    ("destination_ip_prefix", VStr "10.22.2.0/24")])].
Proof. split; vm_compute; reflexivity. Qed.

Lemma flow_classifier_ports_domain module cloud f ports key :
  os_sfc_flow_classifier._ports_get_ids module cloud f = Ret ports →
  key ≠ "logical_source_port" → key ≠ "logical_destination_port" →
  ports !! key = None.
Proof.
  unfold os_sfc_flow_classifier._ports_get_ids, os_sfc_flow_classifier.resolve_port,
    fail_if, fail_json, getitem, res_bind.
  intros H ? ?.
  repeat (case_match; simplify_eq/=);
    rewrite ?lookup_insert_ne by congruence; apply lookup_empty.
Qed.

Lemma flow_classifier_compose_optional module ports key :
  key ∈ os_sfc_flow_classifier.optional_parameters →
  param module key ≠ VNone →
  os_sfc_flow_classifier._compose_flow_classifier_args module ports !! key
  = Some (param module key).
Proof.
  intros Hin Hg.
  assert (key ≠ "logical_source_port" ∧ key ≠ "logical_destination_port") as [? ?].
  { unfold os_sfc_flow_classifier.optional_parameters in Hin.
    split; intros ->; set_solver. }
  unfold os_sfc_flow_classifier._compose_flow_classifier_args,
    os_sfc_flow_classifier.copy_if_in.
  repeat case_match; rewrite ?lookup_insert_ne by done;
    rewrite set_optional_lookup, bool_decide_true, (is_none_false _ Hg) by done; done.
Qed.

Lemma flow_classifier_compose_port module ports key :
  key = "logical_source_port" ∨ key = "logical_destination_port" →
  os_sfc_flow_classifier._compose_flow_classifier_args module ports !! key = ports !! key.
Proof.
  unfold os_sfc_flow_classifier._compose_flow_classifier_args,
    os_sfc_flow_classifier.copy_if_in.
  intros [-> | ->]; repeat case_match; simplify_map_eq; try done;
    rewrite set_optional_lookup; by rewrite bool_decide_false by set_solver.
Qed.

(** The second look at a flow classifier that holds the create payload. *)
Lemma flow_classifier_unchanged module cloud ports (obj : gmap string value) :
  os_sfc_flow_classifier._ports_get_ids module cloud false = Ret ports →
  os_sfc_flow_classifier._compose_flow_classifier_args module ports ⊆ obj →
  Forall (λ key, is_Some (obj !! key)) (compared_fields FlowClassifier) →
  references_by_id FlowClassifier module
    (os_sfc_flow_classifier._compose_flow_classifier_args module ports) →
  os_sfc_flow_classifier._needs_update module obj ports = Ret false.
Proof.
  intros Hports Hsub Hall Hrefs.
  assert (∀ key, key ∈ os_sfc_flow_classifier.optional_parameters →
            param module key = VNone ∨ obj !! key = Some (param module key)) as Hopt.
  { intros key Hin. destruct (decide (param module key = VNone)) as [|Hg]; [by left|].
    right. eapply lookup_weaken; [|exact Hsub].
    by apply flow_classifier_compose_optional. }
  unfold os_sfc_flow_classifier._needs_update. unfold after_loop at 1.
  rewrite scalar_loop_same; simpl.
  - apply dict_loop_unchanged, Hopt. set_solver.
  - apply Forall_forall. intros key Hin.
    rewrite Forall_forall in Hall. destruct (Hall key) as [cur Hcur].
    { simpl. set_solver. }
    exists cur. split; [done|].
    destruct (decide (key = "logical_source_port"
                      ∨ key = "logical_destination_port")) as [Hport | Hnp].
    + simpl in Hrefs. rewrite Forall_forall in Hrefs.
      destruct (Hrefs key) as [|Hp]; [set_solver|by left|]. right.
      rewrite flow_classifier_compose_port in Hp by done. by rewrite Hp.
    + rewrite (flow_classifier_ports_domain _ _ _ _ key Hports) by naive_solver. simpl.
      destruct (Hopt key) as [|Hk]; [|by left|].
      { unfold os_sfc_flow_classifier.compare_simple in Hin.
        unfold os_sfc_flow_classifier.optional_parameters.
        set_solver. }
      right. congruence.
Qed.

(** The second look at a port pair that holds the create payload. *)
Lemma port_pair_unchanged module (ports obj : gmap string value) i e :
  ports !! "ingress" = Some i → ports !! "egress" = Some e →
  let payload :=
    <["egress" := e]> (<["ingress" := i]> (os_sfc_port_pair._compose_port_pair_args module)) in
  payload ⊆ obj →
  references_by_id PortPair module payload →
  os_sfc_port_pair._needs_update module obj ports = Ret false.
Proof.
  intros Hi He payload Hsub Hrefs. simpl in Hrefs.
  apply Forall_cons in Hrefs as [Hri Hrefs]. apply Forall_cons in Hrefs as [Hre _].
  pose proof (lookup_weaken _ _ _ _ Hri Hsub) as Hoi.
  pose proof (lookup_weaken _ _ _ _ Hre Hsub) as Hoe.
  unfold payload in Hri, Hre.
  rewrite lookup_insert_ne, lookup_insert_eq in Hri by done.
  rewrite lookup_insert_eq in Hre.
  unfold os_sfc_port_pair._needs_update. unfold after_loop at 1.
  rewrite scalar_loop_same; simpl.
  - apply dict_loop_unchanged.
    destruct (decide (param module "service_function_parameters" = VNone)) as [|Hg];
      [by left|right].
    eapply lookup_weaken; [|exact Hsub]. unfold payload.
    rewrite !lookup_insert_ne by done. unfold os_sfc_port_pair._compose_port_pair_args.
    by rewrite set_optional_lookup, bool_decide_true, (is_none_false _ Hg) by set_solver.
  - repeat constructor.
    + exists (param module "ingress"). split; [done|]. right. rewrite Hi. simpl. congruence.
    + exists (param module "egress"). split; [done|]. right. rewrite He. simpl. congruence.
Qed.

Lemma port_pairs_get_ids_strict module cloud v :
  os_sfc_port_pair_group._port_pairs_get_ids module cloud true = Ret v →
  ∃ ids, v = VList ids.
Proof.
  unfold os_sfc_port_pair_group._port_pairs_get_ids.
  destruct (truthy _); simpl; [|done].
  destruct (py_iter _) as [names| | |]; simpl; try done.
  set (body := λ (pp_name : value) (port_pairs : list value), _).
  assert (∀ acc f, for_in (R := value) names acc body = Ret f → ∃ ids, f = Next ids) as Hloop.
  { induction names as [|n names IH]; intros acc f; simpl.
    - intros [= <-]. eauto.
    - unfold body at 1. destruct (get_sfc_port_pair cloud n) as [[pp|]| | |]; simpl; try done.
      unfold getitem. destruct (pp !! "id"); simpl; try done. apply IH. }
  unfold after_loop. destruct (for_in names [] body) as [f| | |] eqn:E; simpl; try done.
  destruct (Hloop _ _ E) as [ids ->]. intros [= <-]. eauto.
Qed.

Lemma set_ne_refl (l : list value) : set_ne l l = false.
Proof. by apply set_ne_spec. Qed.

(** The second look at a port pair group that holds the create payload. *)
Lemma port_pair_group_unchanged module cloud ids (obj : gmap string value) :
  os_sfc_port_pair_group._port_pairs_get_ids module cloud true = Ret ids →
  os_sfc_port_pair_group._compose_port_pair_group_args module ids ⊆ obj →
  references_by_id PortPairGroup module
    (os_sfc_port_pair_group._compose_port_pair_group_args module ids) →
  os_sfc_port_pair_group._needs_update module obj ids = Ret false.
Proof.
  intros [l ->]%port_pairs_get_ids_strict Hsub Hrefs.
  unfold os_sfc_port_pair_group._compose_port_pair_group_args in *.
  simpl in Hrefs. specialize (Hrefs l (lookup_insert_eq _ _ _)).
  assert (obj !! "port_pairs" = Some (VList l)) as Hpp.
  { eapply lookup_weaken; [|exact Hsub]. apply lookup_insert_eq. }
  unfold os_sfc_port_pair_group._needs_update, py_set, getitem. simpl.
  rewrite Hrefs, Hpp. simpl. rewrite Hrefs. simpl. rewrite set_ne_refl.
  apply dict_loop_unchanged.
  destruct (decide (param module "port_pair_group_parameters" = VNone)) as [|Hg];
    [by left|right].
  eapply lookup_weaken; [|exact Hsub]. rewrite lookup_insert_ne by done.
  by rewrite set_optional_lookup, bool_decide_true, (is_none_false _ Hg) by set_solver.
Qed.

Lemma global_compose_port_pair_group_args :
  os_sfc_port_pair_group.global os_sfc_port_pair_group.module_globals
    "_compose_port_pair_group_args"
  = Ret os_sfc_port_pair_group._compose_port_pair_group_args.
Proof. reflexivity. Qed.

(** What a run that issued a create call resolved and sent. *)
Lemma first_run_created k module cloud payload :
  state module = present → check_mode module = false →
  (apply k module cloud).2 = [Create k payload] →
  changed_of (apply k module cloud) ≠ None →
  changed_of (apply k module cloud) = Some true
  ∧ match k with
    | FlowClassifier =>
        ∃ ports, os_sfc_flow_classifier._ports_get_ids module cloud false = Ret ports
                 ∧ payload = os_sfc_flow_classifier._compose_flow_classifier_args module ports
    | PortPair =>
        ∃ ports i e, os_sfc_port_pair._ports_get_ids module cloud true = Ret ports
                     ∧ ports !! "ingress" = Some i ∧ ports !! "egress" = Some e
                     ∧ payload = <["egress" := e]>
                                   (<["ingress" := i]>
                                      (os_sfc_port_pair._compose_port_pair_args module))
    | PortPairGroup =>
        ∃ ids, os_sfc_port_pair_group._port_pairs_get_ids module cloud true = Ret ids
               ∧ payload = os_sfc_port_pair_group._compose_port_pair_group_args module ids
    | PortChain => True
    end.
Proof.
  intros Hs Hc. unfold changed_of.
  destruct k; unfold_main; rewrite Hs, Hc; simpl;
    rewrite ?global_compose_port_pair_group_args; unfold getitem;
    split_cases; intros [= <-] ?; (split; [done|]); eauto 10.
Qed.

(** A run that finds the object and sees nothing to update. *)
Lemma second_run_unchanged k module cloud (obj : gmap string value) i :
  state module = present → check_mode module = false →
  get_current k module cloud = Ret (Some obj) → obj !! "id" = Some i →
  match k with
  | FlowClassifier =>
      ∃ ports, os_sfc_flow_classifier._ports_get_ids module cloud false = Ret ports
               ∧ os_sfc_flow_classifier._needs_update module obj ports = Ret false
  | PortPair =>
      ∃ ports, os_sfc_port_pair._ports_get_ids module cloud true = Ret ports
               ∧ os_sfc_port_pair._needs_update module obj ports = Ret false
  | PortPairGroup =>
      ∃ ids, os_sfc_port_pair_group._port_pairs_get_ids module cloud true = Ret ids
             ∧ os_sfc_port_pair_group._needs_update module obj ids = Ret false
  | PortChain =>
      ∃ ids, os_sfc_port_chain._port_chains_get_ids module cloud true = Ret ids
             ∧ os_sfc_port_chain._needs_update module obj ids = Ret false
  end →
  apply k module cloud
  = (ExitJson false {[ "id" := i; result_key k := VDict obj ]}, []).
Proof.
  intros Hs Hc Hcur Hid H.
  assert (obj ≠ ∅) as Hne by (intros ->; by rewrite lookup_empty in Hid).
  destruct k; destruct H as (ids & Hids & Hn); fold_current; unfold_main;
    rewrite Hs, Hc, Hcur; simpl; rewrite Hids, (as_truthy_Some _ Hne), Hn;
    unfold getitem; simpl; by rewrite Hid.
Qed.

(** C2, amended. For the flow classifier, port pair and port pair group
    modules and a request with a non-empty name that names its references by
    id: if the first run for [state=present] issued a create call and exited,
    it reported [changed=true]; and a second run that finds, under that
    name, an object holding the create payload (with an id and every compared
    field), the references resolving as before, reports [changed=false],
    returns that object and issues no call. *)
Theorem present_twice_unchanged (k : sfc_kind) (module : ansible_module)
    (before after : cloud) (payload obj : gmap string value) (i : value) :
  k ≠ PortChain →
  state module = present → check_mode module = false →
  truthy (param module "name") = true →
  (apply k module before).2 = [Create k payload] →
  changed_of (apply k module before) ≠ None →
  Forall (λ d, cloud_get after d = cloud_get before d) (dependencies k) →
  cloud_get after (Sfc k) (param module "name") = inr (Some obj) →
  payload ⊆ obj → obj !! "id" = Some i →
  Forall (λ key, is_Some (obj !! key)) (compared_fields k) →
  references_by_id k module payload →
  changed_of (apply k module before) = Some true
  ∧ apply k module after = (ExitJson false {[ "id" := i; result_key k := VDict obj ]}, []).
Proof.
  intros Hk Hs Hc Hname Htrace Hexit Hdeps Hobj Hsub Hid Hall Hrefs.
  destruct (first_run_created k module before payload Hs Hc Htrace Hexit) as [Hch Hfirst].
  split; [done|].
  assert (get_current k module after = Ret (Some obj)) as Hcur.
  { unfold get_current, lookup_by_name. by rewrite Hname, Hobj. }
  apply second_run_unchanged; try done.
  destruct k; [| | |done].
  - destruct Hfirst as (ports & Hports & ->).
    apply Forall_cons in Hdeps as [Hd _].
    exists ports. rewrite (flow_classifier_ports_ext _ _ _ _ Hd). split; [done|].
    by apply (flow_classifier_unchanged _ before).
  - destruct Hfirst as (ports & i' & e & Hports & Hi & He & ->).
    apply Forall_cons in Hdeps as [Hd _].
    exists ports. rewrite (port_pair_ports_ext _ _ _ _ Hd). split; [done|].
    by apply (port_pair_unchanged _ _ _ i' e).
  - destruct Hfirst as (ids & Hids & ->).
    apply Forall_cons in Hdeps as [Hd _].
    exists ids. rewrite (port_pairs_get_ids_ext _ _ _ _ Hd). split; [done|].
    by apply (port_pair_group_unchanged _ before).
Qed.

Lemma present_twice_unchanged_witness :
  changed_of (apply PortPair new_port_pair (cloud_of base_store)) = Some true
  ∧ apply PortPair new_port_pair (cloud_of store_with_new_port_pair)
    = (ExitJson false {[ "id" := VStr "new-id"; "port_pair" := VDict created_port_pair ]},
       []).
Proof.
  apply (present_twice_unchanged PortPair new_port_pair (cloud_of base_store)
           (cloud_of store_with_new_port_pair) new_port_pair_payload created_port_pair
           (VStr "new-id")); try reflexivity; try done.
  - repeat constructor.
  - apply map_subseteq_spec. intros key v.
    unfold new_port_pair_payload, created_port_pair, dict. simpl.
    rewrite !lookup_insert. repeat case_decide; simplify_eq; try done.
  - repeat constructor; by eexists.
  - repeat constructor.
Defined.

(** * Further properties of the modules *)

Lemma absent_missing_unchanged_witness :
  apply PortChain remove_missing_chain (cloud_of base_store) = (ExitJson false ∅, []).
Proof. apply (absent_missing_unchanged PortChain _ _ None); reflexivity. Defined.

(** X2. [state=absent] outside check mode, when the object exists: exactly one
    delete call, keyed by the object's id; the invocation reports
    [changed=true] when the store accepts it and fails with the store's
    message otherwise. *)
Theorem absent_existing_deleted (k : sfc_kind) (module : ansible_module) (cloud : cloud)
    (obj : gmap string value) (i : value) :
  state module = absent → check_mode module = false →
  get_current k module cloud = Ret (Some obj) → obj !! "id" = Some i →
  apply k module cloud
  = (match cloud_delete cloud k i with
     | inl msg => FailJson (Msg msg)
     | inr _ => ExitJson true ∅
     end, [Delete k i]).
Proof.
  intros Hs Hc Hcur Hid.
  assert (obj ≠ ∅) as Hne by (intros ->; by rewrite lookup_empty in Hid).
  destruct k; fold_current; unfold_main; rewrite Hcur, Hs, Hc; simpl;
    rewrite (as_truthy_Some _ Hne); unfold getitem; rewrite Hid; simpl;
    by destruct (cloud_delete _ _ _).
Qed.

Lemma absent_existing_deleted_witness :
  apply PortPair remove_port_pair (cloud_of base_store)
  = (ExitJson true ∅, [Delete PortPair (VStr "pp-id-1")]).
Proof.
  apply (absent_existing_deleted PortPair remove_port_pair (cloud_of base_store)
           mpls_port_pair);
    reflexivity.
Defined.

(** X3. Every call a module issues is on a resource of its own kind and fits
    the target state: creates and updates for [present], deletes for
    [absent]. *)
Theorem calls_fit_state (k : sfc_kind) (module : ansible_module) (cloud : cloud) :
  Forall (fits_state k (state module)) (apply k module cloud).2.
Proof.
  destruct k; unfold_main; unfold os_sfc_port_pair_group.module_globals,
    os_sfc_port_pair_group.global;
    destruct (state module); simpl; split_cases; repeat constructor.
Qed.

(** X4. Without a name the current object is never looked up, so the only call a
    module can issue is a create. *)
Theorem nameless_only_creates (k : sfc_kind) (module : ansible_module) (cloud : cloud) :
  truthy (param module "name") = false →
  Forall is_create (apply k module cloud).2.
Proof.
  intros Hn.
  assert (get_current k module cloud = Ret None) as Hcur.
  { unfold get_current, lookup_by_name. by rewrite Hn. }
  destruct k; fold_current; unfold_main; rewrite Hcur; simpl;
    unfold as_truthy; split_cases; repeat constructor.
Qed.

Lemma nameless_only_creates_witness :
  Forall is_create (apply FlowClassifier nameless_classifier (cloud_of store_with_nameless)).2.
Proof. apply nameless_only_creates. reflexivity. Defined.

(** X5. An error of the store in the first lookup ends the invocation, in every
    mode, with [fail_json] carrying the store's message, before any call. *)
Theorem lookup_error_reported (k : sfc_kind) (module : ansible_module) (cloud : cloud)
    (msg : string) :
  truthy (param module "name") = true →
  cloud_get cloud (Sfc k) (param module "name") = inl msg →
  apply k module cloud = (FailJson (Msg msg), []).
Proof.
  intros Hn Hget.
  assert (get_current k module cloud = Raise (OpenStackCloudException msg)) as Hcur.
  { unfold get_current, lookup_by_name. by rewrite Hn, Hget. }
  destruct k; fold_current; unfold_main; by rewrite Hcur.
Qed.

Lemma lookup_error_reported_witness :
  apply PortPair remove_port_pair (failing_cloud "HTTP 503")
  = (FailJson (Msg "HTTP 503"), []).
Proof. apply lookup_error_reported; reflexivity. Defined.

(** X6. When the store rejects every mutation, an invocation that issues a call
    fails with the store's message: it never reports a change it did not
    make. *)
Theorem rejected_mutation_fails (k : sfc_kind) (module : ansible_module) (cloud : cloud)
    (msg : string) :
  (∀ k' kw, cloud_create cloud k' kw = inl msg) →
  (∀ k' i kw, cloud_update cloud k' i kw = inl msg) →
  (∀ k' i, cloud_delete cloud k' i = inl msg) →
  (apply k module cloud).2 ≠ [] →
  (apply k module cloud).1 = FailJson (Msg msg).
Proof.
  intros Hcr Hup Hde.
  destruct k; unfold_main; rewrite ?Hcr, ?Hup, ?Hde;
    split_cases; rewrite ?Hcr, ?Hup, ?Hde in *; simplify_eq/=; try done.
Qed.

Lemma rejected_mutation_fails_witness :
  (apply PortPair remove_port_pair (read_only_cloud base_store "quota exceeded")).1
  = FailJson (Msg "quota exceeded").
Proof. apply rejected_mutation_fails; try reflexivity. vm_compute. discriminate. Defined.

(** X7. The port pair module requires [ingress] and then [egress] whenever the
    target state is [present], also when the port pair already exists: a
    missing one fails with its own message before any lookup of a port and
    before any call. *)
Theorem port_pair_requires_ingress_and_egress (module : ansible_module) (cloud : cloud)
    (pp : option (gmap string value)) :
  state module = present → check_mode module = false →
  get_current PortPair module cloud = Ret pp →
  (truthy (param module "ingress") = false →
   apply PortPair module cloud
   = (FailJson (Msg "Parameter 'ingress' is required in Sfc Port Pair Create"), []))
  ∧ (truthy (param module "ingress") = true → truthy (param module "egress") = false →
     apply PortPair module cloud
     = (FailJson (Msg "Parameter 'egress' is required in Sfc Port Pair Create"), [])).
Proof.
  intros Hs Hc Hcur. split.
  - intros Hi. apply (present_fails_in_resolution PortPair _ _ pp); [done..|].
    unfold os_sfc_port_pair._ports_get_ids, os_sfc_port_pair.require_param.
    by rewrite Hi.
  - intros Hi He. apply (present_fails_in_resolution PortPair _ _ pp); [done..|].
    unfold os_sfc_port_pair._ports_get_ids, os_sfc_port_pair.require_param.
    by rewrite Hi, He.
Qed.

Lemma port_pair_requires_ingress_and_egress_witness :
  apply PortPair no_egress (cloud_of base_store)
  = (FailJson (Msg "Parameter 'egress' is required in Sfc Port Pair Create"), []).
Proof.
  exact (proj2 (port_pair_requires_ingress_and_egress no_egress (cloud_of base_store)
                  (find_object base_store (Sfc PortPair) (VStr "pp1"))
                  eq_refl eq_refl eq_refl) eq_refl eq_refl).
Defined.

(** X8. In check mode the port pair module raises [NameError] whenever [ingress]
    or [egress] is missing, for either target state: the early return of
    [_ports_get_ids] names [port_ids], which is not defined. *)
Theorem port_pair_check_mode_name_error (module : ansible_module) (cloud : cloud)
    (pp : option (gmap string value)) :
  check_mode module = true →
  get_current PortPair module cloud = Ret pp →
  truthy (param module "ingress") = false ∨ truthy (param module "egress") = false →
  apply PortPair module cloud = (Raise (NameError "port_ids"), []).
Proof.
  intros Hc Hcur Hmiss. fold_current. unfold_main. rewrite Hcur, Hc. simpl.
  unfold os_sfc_port_pair._ports_get_ids, os_sfc_port_pair.require_param.
  destruct (truthy (param module "ingress")); simpl; [|done].
  destruct Hmiss as [|He]; [done|]. by rewrite He.
Qed.

Lemma port_pair_check_mode_name_error_witness :
  apply PortPair no_egress_check (cloud_of base_store) = (Raise (NameError "port_ids"), []).
Proof.
  apply (port_pair_check_mode_name_error _ _
           (find_object base_store (Sfc PortPair) (VStr "pp1")));
    [reflexivity..|]. by right.
Defined.

Lemma port_pair_ports_resolved module cloud p1 p2 i e :
  truthy (param module "ingress") = true → truthy (param module "egress") = true →
  get_port cloud (param module "ingress") = Ret (Some p1) → p1 !! "id" = Some i →
  get_port cloud (param module "egress") = Ret (Some p2) → p2 !! "id" = Some e →
  ∀ f, os_sfc_port_pair._ports_get_ids module cloud f
       = Ret (<["egress" := e]> (<["ingress" := i]> ∅)).
Proof.
  intros Hi He H1 Hid1 H2 Hid2 f.
  unfold os_sfc_port_pair._ports_get_ids, os_sfc_port_pair.require_param,
    os_sfc_port_pair.resolve_port, getitem.
  rewrite Hi, He, H1. simpl. rewrite Hid1. simpl. rewrite H2. simpl. by rewrite Hid2.
Qed.

(** X9. A new port pair is created with the ids of the resolved ports in place
    of the supplied [ingress] and [egress], next to the other supplied
    parameters. *)
Theorem port_pair_created_with_resolved_ids (module : ansible_module) (cloud : cloud)
    (pp : option (gmap string value)) (p1 p2 : gmap string value) (i e : value) :
  state module = present → check_mode module = false →
  get_current PortPair module cloud = Ret pp → as_truthy pp = None →
  truthy (param module "ingress") = true → truthy (param module "egress") = true →
  get_port cloud (param module "ingress") = Ret (Some p1) → p1 !! "id" = Some i →
  get_port cloud (param module "egress") = Ret (Some p2) → p2 !! "id" = Some e →
  ∃ payload,
    (apply PortPair module cloud).2 = [Create PortPair payload]
    ∧ payload !! "ingress" = Some i ∧ payload !! "egress" = Some e
    ∧ ∀ key, key ≠ "ingress" → key ≠ "egress" →
        payload !! key
        = if bool_decide (key ∈ os_sfc_port_pair.optional_parameters)
             && negb (is_none (param module key))
          then Some (param module key) else None.
Proof.
  intros Hs Hc Hcur Hnone Hi He H1 Hid1 H2 Hid2.
  exists (<["egress" := e]> (<["ingress" := i]> (os_sfc_port_pair._compose_port_pair_args module))).
  split; [|split; [|split]].
  - fold_current. unfold_main. rewrite Hcur, Hs, Hc. simpl.
    rewrite (port_pair_ports_resolved _ _ p1 p2 i e) by done. rewrite Hnone.
    unfold getitem. rewrite lookup_insert_ne, !lookup_insert_eq by done. simpl.
    split_cases; reflexivity.
  - by rewrite lookup_insert_ne, lookup_insert_eq.
  - by rewrite lookup_insert_eq.
  - intros key ? ?. rewrite !lookup_insert_ne by done.
    unfold os_sfc_port_pair._compose_port_pair_args. by rewrite set_optional_lookup.
Qed.

Lemma port_pair_created_with_resolved_ids_witness :
  ∃ payload,
    (apply PortPair new_port_pair_by_name (cloud_of base_store)).2
    = [Create PortPair payload]
    ∧ payload !! "ingress" = Some (VStr "p1") ∧ payload !! "egress" = Some (VStr "p2")
    ∧ ∀ key, key ≠ "ingress" → key ≠ "egress" →
        payload !! key
        = if bool_decide (key ∈ os_sfc_port_pair.optional_parameters)
             && negb (is_none (param new_port_pair_by_name key))
          then Some (param new_port_pair_by_name key) else None.
Proof.
  apply (port_pair_created_with_resolved_ids new_port_pair_by_name (cloud_of base_store)
           None (dict [("id", VStr "p1")]) (dict [("id", VStr "p2")]));
    reflexivity.
Defined.

(** X10. An update of a port pair sends the parameters as they were supplied:
    [ingress] and [egress] are not replaced by the resolved ids. *)
Theorem port_pair_update_sends_supplied (module : ansible_module) (cloud : cloud)
    (i : value) (kw : gmap string value) :
  Update PortPair i kw ∈ (apply PortPair module cloud).2 →
  ∀ key, kw !! key
         = if bool_decide (key ∈ os_sfc_port_pair.optional_parameters)
              && negb (is_none (param module key))
           then Some (param module key) else None.
Proof.
  intros Hin.
  assert (kw = os_sfc_port_pair._compose_port_pair_args module) as ->.
  { revert Hin. unfold_main; split_cases;
      rewrite ?elem_of_nil, ?list_elem_of_singleton; try done; by intros [= -> ->]. }
  intros key. unfold os_sfc_port_pair._compose_port_pair_args.
  by rewrite set_optional_lookup, lookup_empty.
Qed.

Lemma port_pair_update_sends_supplied_witness :
  (apply PortPair change_correlation (cloud_of base_store)).2
  = [Update PortPair (VStr "pp-id-1") change_correlation_payload]
  ∧ ∀ key, change_correlation_payload !! key
           = if bool_decide (key ∈ os_sfc_port_pair.optional_parameters)
                && negb (is_none (param change_correlation key))
             then Some (param change_correlation key) else None.
Proof.
  split; [apply change_correlation_trace|].
  apply (port_pair_update_sends_supplied change_correlation (cloud_of base_store)
           (VStr "pp-id-1")).
  rewrite change_correlation_trace. apply list_elem_of_here.
Defined.

(** X11. A port pair whose ingress port is supplied under a name other than its
    id is sent an update on every run, although nothing changed: the
    supplied value is compared with the resolved id. *)
Theorem port_pair_by_name_always_updated (module : ansible_module) (cloud : cloud)
    (pp p1 p2 : gmap string value) (id cur i e : value) :
  state module = present → check_mode module = false →
  get_current PortPair module cloud = Ret (Some pp) → pp !! "id" = Some id →
  pp !! "ingress" = Some cur →
  truthy (param module "ingress") = true → truthy (param module "egress") = true →
  get_port cloud (param module "ingress") = Ret (Some p1) → p1 !! "id" = Some i →
  get_port cloud (param module "egress") = Ret (Some p2) → p2 !! "id" = Some e →
  param module "ingress" ≠ i →
  (apply PortPair module cloud).2
  = [Update PortPair id (os_sfc_port_pair._compose_port_pair_args module)].
Proof.
  intros Hs Hc Hcur Hid Hin Hi He H1 Hid1 H2 Hid2 Hne.
  assert (pp ≠ ∅) as Hnemp by (intros ->; by rewrite lookup_empty in Hid).
  assert (os_sfc_port_pair._needs_update module pp
            (<["egress" := e]> (<["ingress" := i]> ∅)) = Ret true) as Hupd.
  { unfold os_sfc_port_pair._needs_update, after_loop, os_sfc_port_pair.compare_simple,
      getitem. simpl. rewrite Hin. simpl.
    rewrite lookup_insert_ne, lookup_insert_eq by done. simpl.
    by rewrite (truthy_not_none _ Hi), (py_ne_true _ _ Hne). }
  fold_current. unfold_main. rewrite Hcur, Hs, Hc. simpl.
  rewrite (port_pair_ports_resolved _ _ p1 p2 i e) by done.
  rewrite (as_truthy_Some _ Hnemp), Hupd. unfold getitem. rewrite Hid. simpl.
  split_cases; reflexivity.
Qed.

Lemma port_pair_by_name_always_updated_witness :
  (apply PortPair same_ports_by_name (cloud_of base_store)).2
  = [Update PortPair (VStr "pp-id-1")
       (os_sfc_port_pair._compose_port_pair_args same_ports_by_name)].
Proof.
  apply (port_pair_by_name_always_updated same_ports_by_name (cloud_of base_store)
           mpls_port_pair
           (dict [("id", VStr "p1")]) (dict [("id", VStr "p2")])
           (VStr "pp-id-1") (VStr "p1") (VStr "p1") (VStr "p2"));
    try reflexivity. discriminate.
Defined.

Lemma for_in_local {X R S} (xs : list X) (s : S) (body : X → S → res (flow R S)) :
  (∀ x s, local_outcome (body x s)) → local_outcome (for_in xs s body).
Proof.
  intros Hb. revert s. induction xs as [|x xs IH]; intros s; simpl; [done|].
  specialize (Hb x s). destruct (body x s) as [[r|s']| | |]; simpl; done.
Qed.

Lemma after_loop_local {R S} (loop : res (flow R S)) (k : S → res R) :
  local_outcome loop → (∀ s, local_outcome (k s)) → local_outcome (after_loop loop k).
Proof.
  intros Hl Hk. unfold after_loop. destruct loop as [[r|s]| | |]; simpl; done.
Qed.

Lemma getitem_local obj key : local_outcome (getitem obj key).
Proof. unfold getitem. by destruct (obj !! key). Qed.

Lemma flow_classifier_ports_never_fail module cloud msg :
  os_sfc_flow_classifier._ports_get_ids module cloud false ≠ FailJson msg.
Proof.
  unfold os_sfc_flow_classifier._ports_get_ids, os_sfc_flow_classifier.resolve_port,
    get_port, of_cloud, getitem, fail_if, res_bind.
  split_cases; done.
Qed.

Lemma flow_classifier_needs_update_local module fc ports :
  local_outcome (os_sfc_flow_classifier._needs_update module fc ports).
Proof.
  unfold os_sfc_flow_classifier._needs_update.
  apply after_loop_local; [apply for_in_local|intros _; apply after_loop_local;
                                                [apply for_in_local|done]].
  - intros key _. pose proof (getitem_local fc key) as Hg.
    destruct (getitem fc key); simpl in *; try done. by case_match.
  - intros key _. destruct (is_none _); [done|].
    pose proof (getitem_local fc key) as Hg.
    destruct (getitem fc key); simpl in *; try done. by case_match.
Qed.

(** X12. The flow classifier module never fails for a logical port that does not
    resolve: [main] resolves the ports with [fail_on_error] left at [False].
    With a store that answers every call, no invocation of the module ends
    in [fail_json]. *)
Theorem flow_classifier_never_fails (module : ansible_module) (cloud : cloud)
    (msg : message) :
  (∀ k name, ∃ o, cloud_get cloud k name = inr o) →
  (∀ kw, ∃ o, cloud_create cloud FlowClassifier kw = inr o) →
  (∀ i kw, ∃ o, cloud_update cloud FlowClassifier i kw = inr o) →
  (∀ i, cloud_delete cloud FlowClassifier i = inr tt) →
  (apply FlowClassifier module cloud).1 ≠ FailJson msg.
Proof.
  intros Hget Hcreate Hupdate Hdelete.
  assert (local_outcome (lookup_by_name (get_sfc_flow_classifier cloud)
                           (param module "name"))) as Hcur.
  { unfold lookup_by_name, get_sfc_flow_classifier.
    destruct (truthy _); [|done].
    by destruct (Hget (Sfc FlowClassifier) (param module "name")) as [o ->]. }
  assert (∀ f, f = false → local_outcome (os_sfc_flow_classifier._ports_get_ids module cloud f))
    as Hports.
  { intros f ->. unfold os_sfc_flow_classifier._ports_get_ids,
      os_sfc_flow_classifier.resolve_port, get_port, getitem, fail_if, res_bind.
    destruct (Hget Port (param module "logical_source_port")) as [o1 ->].
    destruct (Hget Port (param module "logical_destination_port")) as [o2 ->].
    simpl. split_cases; done. }
  specialize (Hports false eq_refl).
  pose proof (flow_classifier_needs_update_local module) as Hnu.
  unfold_main. unfold os_sfc_flow_classifier._system_state_change, getitem.
  repeat first
    [ rewrite Hdelete
    | match goal with
      | |- context [cloud_update cloud _ ?i ?kw] => destruct (Hupdate i kw) as [? ->]
      | |- context [cloud_create cloud _ ?kw] => destruct (Hcreate kw) as [? ->]
      | H : cloud_delete cloud _ _ = inl _ |- _ => rewrite Hdelete in H; discriminate H
      | H : cloud_update cloud _ ?i ?kw = inl _ |- _ =>
          destruct (Hupdate i kw) as [? ?]; congruence
      | H : cloud_create cloud _ ?kw = inl _ |- _ =>
          destruct (Hcreate kw) as [? ?]; congruence
      | H : ?r = _, L : local_outcome ?r |- _ => rewrite H in L; done
      | H : os_sfc_flow_classifier._needs_update _ ?o ?p = _ |- _ =>
          pose proof (Hnu o p) as L; rewrite H in L; done
      end
    | case_match; simplify_eq/= ]; done.
Qed.

Lemma flow_classifier_never_fails_witness :
  get_port (cloud_of base_store) (param classifier_unknown_port "logical_source_port")
  = Ret None
  ∧ (apply FlowClassifier classifier_unknown_port (cloud_of base_store)).1
    ≠ FailJson (Msg "Specified logical source port was not found.").
Proof.
  split; [reflexivity|].
  apply flow_classifier_never_fails; intros; try (eexists; reflexivity); reflexivity.
Defined.

(** X13. A logical source port that does not resolve is left out of the create
    payload of a flow classifier; the classifier is created without it. *)
Theorem flow_classifier_unresolved_port_dropped (module : ansible_module) (cloud : cloud)
    (fc : option (gmap string value)) (ports : gmap string value) :
  state module = present → check_mode module = false →
  get_current FlowClassifier module cloud = Ret fc → as_truthy fc = None →
  param module "logical_source_port" ≠ VNone →
  get_port cloud (param module "logical_source_port") = Ret None →
  os_sfc_flow_classifier._ports_get_ids module cloud false = Ret ports →
  (apply FlowClassifier module cloud).2
  = [Create FlowClassifier (os_sfc_flow_classifier._compose_flow_classifier_args module ports)]
  ∧ os_sfc_flow_classifier._compose_flow_classifier_args module ports
    !! "logical_source_port" = None.
Proof.
  intros Hs Hc Hcur Hnone Hg Hp Hports. split.
  - fold_current. unfold_main. rewrite Hcur, Hs, Hc. simpl. rewrite Hports, Hnone.
    split_cases; reflexivity.
  - rewrite flow_classifier_compose_port by (by left).
    revert Hports. unfold os_sfc_flow_classifier._ports_get_ids,
      os_sfc_flow_classifier.resolve_port, getitem, fail_if, res_bind.
    rewrite (is_none_false _ Hg), Hp.
    split_cases; intros; simplify_eq; by rewrite ?lookup_insert_ne, lookup_empty by done.
Qed.

Lemma flow_classifier_unresolved_port_dropped_witness :
  (apply FlowClassifier classifier_unknown_port (cloud_of base_store)).2
  = [Create FlowClassifier
       (os_sfc_flow_classifier._compose_flow_classifier_args classifier_unknown_port ∅)]
  ∧ os_sfc_flow_classifier._compose_flow_classifier_args classifier_unknown_port ∅
    !! "logical_source_port" = None.
Proof.
  apply (flow_classifier_unresolved_port_dropped classifier_unknown_port
           (cloud_of base_store) None ∅); try reflexivity. discriminate.
Defined.

Lemma port_pairs_loop_resolved cloud f names ids acc :
  Forall2 (resolves_to (get_sfc_port_pair cloud)) names ids →
  for_in (R := value) names acc (λ pp_name port_pairs,
         do pp <- get_sfc_port_pair cloud pp_name;
         do _ <- match pp with
                 | None =>
                     fail_if f
                       (Fmt "Specified port pair `%s' was not found." pp_name)
                       (Ret tt)
                 | Some _ => Ret tt
                 end;
         do i <- subscript pp "id";
         Ret (Next (port_pairs ++ [i])))
  = Ret (Next (acc ++ ids)).
Proof.
  intros H. revert acc.
  induction H as [|n i names ids (pp & Hn & Hi) _ IH]; intros acc; simpl.
  - by rewrite app_nil_r.
  - rewrite Hn. simpl. unfold getitem. rewrite Hi. simpl. rewrite IH.
    by rewrite <- app_assoc.
Qed.

(** X14. The port pair group resolution returns the ids of the port pairs in the
    order of the names supplied, one per name, with or without
    [fail_on_error]. *)
Theorem port_pairs_resolved_in_order (module : ansible_module) (cloud : cloud)
    (names ids : list value) (f : bool) :
  param module "port_pairs" = VList names → names ≠ [] →
  Forall2 (resolves_to (get_sfc_port_pair cloud)) names ids →
  os_sfc_port_pair_group._port_pairs_get_ids module cloud f = Ret (VList ids).
Proof.
  intros Hp Hne Hres. unfold os_sfc_port_pair_group._port_pairs_get_ids.
  rewrite Hp. cbn [truthy]. rewrite bool_decide_false by done.
  cbn [negb py_iter res_bind]. unfold after_loop.
  by rewrite (port_pairs_loop_resolved _ _ _ ids).
Qed.

Lemma port_pairs_resolved_in_order_witness :
  os_sfc_port_pair_group._port_pairs_get_ids new_group (cloud_of base_store) true
  = Ret (VList [VStr "pp-id-2"; VStr "pp-id-1"]).
Proof.
  apply (port_pairs_resolved_in_order new_group (cloud_of base_store)
           [VStr "pp2"; VStr "pp1"]); [reflexivity|done|].
  repeat constructor; eexists; split; reflexivity.
Defined.

(** X15. In check mode a port pair name that does not resolve makes the group
    module raise [TypeError]: with [fail_on_error=False] the loop goes on to
    subscript the [None] it got. *)
Theorem port_pair_group_check_mode_type_error (module : ansible_module) (cloud : cloud)
    (ppg : option (gmap string value)) (before after ids : list value) (name : value) :
  check_mode module = true →
  get_current PortPairGroup module cloud = Ret ppg →
  param module "port_pairs" = VList (before ++ name :: after) →
  Forall2 (resolves_to (get_sfc_port_pair cloud)) before ids →
  get_sfc_port_pair cloud name = Ret None →
  apply PortPairGroup module cloud
  = (Raise (TypeError "'NoneType' object is not subscriptable"), []).
Proof.
  intros Hc Hcur Hp Hres Hnone.
  assert (os_sfc_port_pair_group._port_pairs_get_ids module cloud false
          = Raise (TypeError "'NoneType' object is not subscriptable")) as Hids.
  { unfold os_sfc_port_pair_group._port_pairs_get_ids.
    rewrite Hp. cbn [truthy]. rewrite bool_decide_false by (by destruct before).
    cbn [negb py_iter res_bind]. unfold after_loop. rewrite for_in_app.
    rewrite (port_pairs_loop_resolved _ _ _ ids) by done. simpl. by rewrite Hnone. }
  fold_current. unfold_main. by rewrite Hcur, Hc, Hids.
Qed.

Lemma port_pair_group_check_mode_type_error_witness :
  apply PortPairGroup unknown_port_pair_check (cloud_of base_store)
  = (Raise (TypeError "'NoneType' object is not subscriptable"), []).
Proof.
  apply (port_pair_group_check_mode_type_error _ _ None [VStr "pp1"] [] [VStr "pp-id-1"]
           (VStr "pp9")); try reflexivity.
  repeat constructor; eexists; split; reflexivity.
Defined.

(** X16. A group whose resolved ids and current ids differ as sets needs an
    update, whatever the group parameters. *)
Theorem port_pair_group_sets_differ (module : ansible_module) (ppg : gmap string value)
    (ids cur : list value) (x : value) :
  ppg !! "port_pairs" = Some (VList cur) →
  forallb hashable ids = true → forallb hashable cur = true →
  (x ∈ ids ∧ x ∉ cur) ∨ (x ∈ cur ∧ x ∉ ids) →
  os_sfc_port_pair_group._needs_update module ppg (VList ids) = Ret true.
Proof.
  intros Hcur Hh Hh' Hx.
  unfold os_sfc_port_pair_group._needs_update, py_set, getitem. simpl.
  rewrite Hh, Hcur. simpl. rewrite Hh'. simpl.
  destruct (set_ne ids cur) eqn:E; [done|].
  rewrite set_ne_spec in E. specialize (E x). naive_solver.
Qed.

Lemma port_pair_group_sets_differ_witness :
  os_sfc_port_pair_group._needs_update grow_group existing_group
    (VList [VStr "pp-id-1"; VStr "pp-id-2"]) = Ret true.
Proof.
  apply (port_pair_group_sets_differ grow_group existing_group _ [VStr "pp-id-1"]
           (VStr "pp-id-2")); try reflexivity.
  left. split; [set_solver|]. intros H. apply list_elem_of_singleton in H. discriminate H.
Defined.

Lemma resolve_all_no_exit cloud k f msg names :
  no_exit (os_sfc_port_chain.resolve_all (λ n, of_cloud (cloud_get cloud k n)) f msg names).
Proof.
  unfold os_sfc_port_chain.resolve_all.
  set (body := λ (name : value) (ids : list value), _).
  generalize (@nil value) as acc.
  induction names as [|n names IH]; intros acc; simpl; [done|].
  unfold body at 1. destruct (cloud_get cloud k n) as [?|[obj|]]; simpl; try done.
  - unfold getitem. destruct (obj !! "id"); simpl; [apply IH|done].
  - by destruct f.
Qed.

Lemma port_chains_get_ids_no_exit module cloud f :
  no_exit (os_sfc_port_chain._port_chains_get_ids module cloud f).
Proof.
  unfold os_sfc_port_chain._port_chains_get_ids, after_loop,
    get_sfc_port_pair_group, get_sfc_flow_classifier.
  destruct (truthy (param module "port_pair_groups")); simpl; [|by destruct f].
  destruct (py_iter_total (param module "port_pair_groups")) as [[names ->] | Ha]; simpl;
    [|by destruct (py_iter _)].
  pose proof (resolve_all_no_exit cloud (Sfc PortPairGroup) f
                "Specified port pair group `%s' wat not found." names) as H1.
  destruct (os_sfc_port_chain.resolve_all _ _ _ names) as [[?|?]| | |]; simpl; try done.
  destruct (truthy (param module "flow_classifiers")); simpl; [|by destruct f].
  destruct (py_iter_total (param module "flow_classifiers")) as [[names' ->] | Ha]; simpl;
    [|by destruct (py_iter _)].
  pose proof (resolve_all_no_exit cloud (Sfc FlowClassifier) f
                "Specified port pair group `%s' wat not found." names') as H2.
  by destruct (os_sfc_port_chain.resolve_all _ _ _ names') as [[?|?]| | |].
Qed.

Lemma port_chains_get_ids_shape module cloud f v :
  os_sfc_port_chain._port_chains_get_ids module cloud f = Ret v →
  v = VNone
  ∨ (truthy (param module "port_pair_groups") = true
     ∧ ∃ a b, v = VDict {[ "port_pair_groups" := VList a; "flow_classifiers" := VList b ]}).
Proof.
  unfold os_sfc_port_chain._port_chains_get_ids.
  destruct (truthy (param module "port_pair_groups")); simpl;
    [|destruct f; simpl; [done|intros [= <-]; by left]].
  destruct (py_iter (param module "port_pair_groups")) as [names| | |]; simpl; try done.
  assert (∀ get msg names f',
            os_sfc_port_chain.resolve_all get f msg names = Ret f' →
            f' = Return VNone ∨ ∃ ids, f' = Next ids) as Hloop.
  { intros get msg ns f'. unfold os_sfc_port_chain.resolve_all.
    set (body := λ (name : value) (ids : list value), _).
    generalize (@nil value) as acc.
    induction ns as [|n ns IH]; intros acc; simpl.
    - intros [= <-]. eauto.
    - unfold body at 1. destruct (get n) as [[obj|]| | |]; simpl; try done.
      + unfold getitem. destruct (obj !! "id"); simpl; try done. apply IH.
      + destruct f; simpl; [done|]. intros [= <-]. by left. }
  unfold after_loop at 1.
  destruct (os_sfc_port_chain.resolve_all _ _ _ names) as [f1| | |] eqn:E1; simpl; try done.
  destruct (Hloop _ _ _ _ E1) as [-> | [a ->]]; [intros [= <-]; by left|].
  destruct (truthy (param module "flow_classifiers")); simpl;
    [|destruct f; simpl; [done|intros [= <-]; by left]].
  destruct (py_iter (param module "flow_classifiers")) as [names'| | |]; simpl; try done.
  unfold after_loop.
  destruct (os_sfc_port_chain.resolve_all _ _ _ names') as [f2| | |] eqn:E2; simpl; try done.
  destruct (Hloop _ _ _ _ E2) as [-> | [b ->]]; intros [= <-]; [by left|].
  right. eauto.
Qed.

Lemma for_in_no_exit {X R S} (xs : list X) (s : S) (body : X → S → res (flow R S)) :
  (∀ x s, no_exit (body x s)) → no_exit (for_in xs s body).
Proof.
  intros Hb. revert s. induction xs as [|x xs IH]; intros s; simpl; [done|].
  specialize (Hb x s). destruct (body x s) as [[r|s']| | |]; simpl; done.
Qed.

Lemma compose_port_chain_args_no_exit module pc_ids :
  no_exit (os_sfc_port_chain._compose_port_chain_args module pc_ids).
Proof.
  unfold os_sfc_port_chain._compose_port_chain_args, after_loop.
  match goal with |- context [for_in ?xs ?s ?b] =>
    pose proof (for_in_no_exit xs s b) as H; destruct (for_in xs s b) as [[?|?]| | |]
  end; simpl; try done.
  apply H. intros x kw. destruct (is_none _); [done|]. by destruct pc_ids.
Qed.

Lemma port_chain_needs_update_true_or_raises module pc ids :
  truthy (param module "port_pair_groups") = true ∨ ids = VNone →
  os_sfc_port_chain._needs_update module pc ids = Ret true
  ∨ ∃ e, os_sfc_port_chain._needs_update module pc ids = Raise e.
Proof.
  intros H. unfold os_sfc_port_chain._needs_update, after_loop, attr_get, getitem,
    os_sfc_port_chain.compare_simple, os_sfc_port_chain.compare_list,
    os_sfc_port_chain.compare_dict, module_attr.
  destruct H as [Ht | ->]; [|simpl; eauto].
  apply truthy_not_none in Ht. simpl. rewrite Ht.
  destruct ids; simpl; eauto.
  destruct (pc !! "chain_id"); simpl; eauto.
  destruct (_ && _); simpl; eauto.
  destruct (pc !! "port_pair_groups"); simpl; eauto.
Qed.

(** X19. For an existing chain and [state=present] the port chain module never
    reports [changed=false], in either mode: the comparison answers [True]
    for the chain id or raises. *)
Theorem port_chain_never_unchanged (module : ansible_module) (cloud : cloud)
    (pc : gmap string value) :
  state module = present →
  get_current PortChain module cloud = Ret (Some pc) → pc ≠ ∅ →
  changed_of (apply PortChain module cloud) ≠ Some false.
Proof.
  intros Hs Hcur Hne. unfold changed_of.
  assert (∀ f ids, os_sfc_port_chain._port_chains_get_ids module cloud f = Ret ids →
            os_sfc_port_chain._needs_update module pc ids = Ret true
            ∨ ∃ e, os_sfc_port_chain._needs_update module pc ids = Raise e) as Hnu.
  { intros f ids [-> | [Ht _]]%port_chains_get_ids_shape;
      apply port_chain_needs_update_true_or_raises; eauto. }
  fold_current. unfold_main. unfold os_sfc_port_chain._system_state_change.
  rewrite Hcur, Hs, (as_truthy_Some _ Hne). simpl.
  destruct (check_mode module); simpl.
  - pose proof (port_chains_get_ids_no_exit module cloud false) as Hx.
    destruct (os_sfc_port_chain._port_chains_get_ids module cloud false) as [ids| | |[]] eqn:E;
      simpl; try done.
    by destruct (Hnu _ _ E) as [-> | [[] ->]].
  - pose proof (port_chains_get_ids_no_exit module cloud true) as Hx.
    destruct (os_sfc_port_chain._port_chains_get_ids module cloud true) as [ids| | |[]] eqn:E;
      simpl; try done.
    destruct (Hnu _ _ E) as [-> | [[] ->]]; simpl; try done.
    pose proof (compose_port_chain_args_no_exit module ids) as Hk.
    destruct (os_sfc_port_chain._compose_port_chain_args module ids) as [?| | |[]];
      simpl; try done.
    unfold getitem. split_cases; done.
Qed.

Lemma port_chain_never_unchanged_witness :
  get_current PortChain same_chain_parameters (cloud_of chain_store) = Ret (Some pc1)
  ∧ changed_of (apply PortChain same_chain_parameters (cloud_of chain_store)) ≠ Some false.
Proof.
  split; [reflexivity|].
  apply (port_chain_never_unchanged same_chain_parameters (cloud_of chain_store) pc1);
    [reflexivity..|]. vm_compute. discriminate.
Defined.

Lemma port_chains_get_ids_supplied module cloud v :
  os_sfc_port_chain._port_chains_get_ids module cloud true = Ret v →
  is_none (param module "port_pair_groups") = false
  ∧ is_none (param module "flow_classifiers") = false.
Proof.
  unfold os_sfc_port_chain._port_chains_get_ids.
  destruct (truthy (param module "port_pair_groups")) eqn:E1; simpl; [|done].
  destruct (py_iter (param module "port_pair_groups")) as [names| | |]; simpl; try done.
  unfold after_loop at 1.
  destruct (os_sfc_port_chain.resolve_all _ _ _ names) as [[?|?]| | |] eqn:E; simpl;
    try done.
  { by apply resolve_all_strict in E as [? ?]. }
  destruct (truthy (param module "flow_classifiers")) eqn:E2; simpl; [|done].
  intros _. split; by apply truthy_not_none.
Qed.

Lemma port_chain_needs_update_true module pc (d : gmap string value) :
  d !! "chain_id" = None →
  is_none (param module "port_pair_groups") = false →
  os_sfc_port_chain._needs_update module pc (VDict d) = Ret true →
  ∃ cid, pc !! "chain_id" = Some cid
         ∧ param module "chain_id" ≠ VNone ∧ param module "chain_id" ≠ cid.
Proof.
  intros Hd Hsup. unfold os_sfc_port_chain._needs_update, after_loop, attr_get, getitem,
    os_sfc_port_chain.compare_simple, os_sfc_port_chain.compare_list,
    os_sfc_port_chain.compare_dict, module_attr.
  simpl. rewrite Hd, Hsup.
  destruct (pc !! "chain_id") as [cid|]; simpl; [|done].
  destruct (is_none (param module "chain_id")) eqn:E1; simpl.
  { by destruct (pc !! "port_pair_groups"). }
  destruct (py_ne (param module "chain_id") cid) eqn:E2; simpl.
  - intros _. exists cid. split; [done|]. split.
    + intros H. by rewrite H in E1.
    + intros H. unfold py_ne in E2. by rewrite bool_decide_true in E2.
  - by destruct (pc !! "port_pair_groups").
Qed.

(** X20. The port chain module updates a chain only for its chain id: an update
    call means that a chain id was supplied and differs from the chain's.
    The payload then carries the supplied chain id and the resolved ids of
    both lists. *)
Theorem port_chain_updated_for_chain_id (module : ansible_module) (cloud : cloud)
    (i : value) (kw : gmap string value) :
  Update PortChain i kw ∈ (apply PortChain module cloud).2 →
  ∃ pc cid a b,
    get_current PortChain module cloud = Ret (Some pc)
    ∧ pc !! "id" = Some i ∧ pc !! "chain_id" = Some cid
    ∧ param module "chain_id" ≠ VNone ∧ param module "chain_id" ≠ cid
    ∧ os_sfc_port_chain._port_chains_get_ids module cloud true
      = Ret (VDict {[ "port_pair_groups" := VList a; "flow_classifiers" := VList b ]})
    ∧ kw !! "port_pair_groups" = Some (VList a)
    ∧ kw !! "flow_classifiers" = Some (VList b)
    ∧ kw !! "chain_id" = Some (param module "chain_id").
Proof.
  intros Hin.
  assert (∃ pc ids, get_current PortChain module cloud = Ret (Some pc)
            ∧ pc !! "id" = Some i
            ∧ os_sfc_port_chain._port_chains_get_ids module cloud true = Ret ids
            ∧ os_sfc_port_chain._needs_update module pc ids = Ret true
            ∧ os_sfc_port_chain._compose_port_chain_args module ids = Ret kw)
    as (pc & ids & Hcur & Hid & Hids & Hupd & Hkw).
  { revert Hin. fold_current. unfold_main. unfold getitem.
    destruct (get_current PortChain module cloud) as [o| | |[]]; simpl;
      try (intros []%elem_of_nil).
    split_cases; rewrite ?elem_of_nil, ?list_elem_of_singleton; try done;
      intros [= -> ->];
      match goal with H : as_truthy ?o = Some ?g |- _ =>
        assert (o = Some g) as -> by (destruct o as [x|]; [|done];
          unfold as_truthy in H; by case_match; simplify_eq)
      end; eauto 10. }
  destruct (port_chains_get_ids_supplied _ _ _ Hids) as [Hp Hf].
  destruct (port_chains_get_ids_strict _ _ _ Hids) as (a & b & ->).
  assert (({[ "port_pair_groups" := VList a; "flow_classifiers" := VList b ]}
             : gmap string value) !! "chain_id" = None) as Hd by (by simplify_map_eq).
  destruct (port_chain_needs_update_true module pc _ Hd Hp Hupd)
    as (cid & Hcid & Hg & Hne).
  exists pc, cid, a, b. repeat (split; [done|]).
  revert Hkw. unfold os_sfc_port_chain._compose_port_chain_args, after_loop,
    os_sfc_port_chain.optional_parameters. simpl.
  rewrite Hp, Hf, (is_none_false _ Hg). simpl.
  destruct (is_none (param module "name")); destruct (is_none (param module "chain_parameters"));
    simpl; intros [= <-]; by simplify_map_eq.
Qed.

Lemma port_chain_updated_for_chain_id_witness :
  ∃ pc cid a b,
    get_current PortChain change_chain_id (cloud_of chain_store) = Ret (Some pc)
    ∧ pc !! "id" = Some (VStr "pc-id-1") ∧ pc !! "chain_id" = Some cid
    ∧ param change_chain_id "chain_id" ≠ VNone ∧ param change_chain_id "chain_id" ≠ cid
    ∧ os_sfc_port_chain._port_chains_get_ids change_chain_id (cloud_of chain_store) true
      = Ret (VDict {[ "port_pair_groups" := VList a; "flow_classifiers" := VList b ]})
    ∧ dict [("name", VStr "pc1");
            ("port_pair_groups", VList [VStr "ppg-id-1"; VStr "ppg-id-2"]);
            ("flow_classifiers", VList [VStr "fc-id-1"]);
            ("chain_id", VStr "7")] !! "port_pair_groups" = Some (VList a)
    ∧ dict [("name", VStr "pc1");
            ("port_pair_groups", VList [VStr "ppg-id-1"; VStr "ppg-id-2"]);
            ("flow_classifiers", VList [VStr "fc-id-1"]);
            ("chain_id", VStr "7")] !! "flow_classifiers" = Some (VList b)
    ∧ dict [("name", VStr "pc1");
            ("port_pair_groups", VList [VStr "ppg-id-1"; VStr "ppg-id-2"]);
            ("flow_classifiers", VList [VStr "fc-id-1"]);
            ("chain_id", VStr "7")] !! "chain_id" = Some (param change_chain_id "chain_id").
Proof.
  apply (port_chain_updated_for_chain_id change_chain_id (cloud_of chain_store)).
  vm_compute. left.
Defined.

(** X21. In check mode with [state=absent], when the references resolve without
    an exception, every module reports [changed] exactly when the object
    exists, and nothing else. *)
Theorem check_mode_absent_reports_existence (k : sfc_kind) (module : ansible_module)
    (cloud : cloud) (o : option (gmap string value)) :
  check_mode module = true → state module = absent →
  get_current k module cloud = Ret o →
  resolved_quietly k module cloud →
  apply k module cloud = (ExitJson (bool_decide (is_Some (as_truthy o))) ∅, []).
Proof.
  intros Hc Hs Hcur Hres.
  destruct k; destruct Hres as [ids Hids]; fold_current; unfold_main;
    rewrite Hcur, Hc; simpl; rewrite Hids; simpl;
    unfold os_sfc_flow_classifier._system_state_change,
      os_sfc_port_pair._system_state_change,
      os_sfc_port_pair_group._system_state_change,
      os_sfc_port_chain._system_state_change;
    rewrite Hs; simpl; by destruct (bool_decide (is_Some (as_truthy o))).
Qed.

Lemma check_mode_absent_reports_existence_witness :
  apply PortChain remove_chain_check (cloud_of chain_store) = (ExitJson true ∅, []).
Proof.
  apply (check_mode_absent_reports_existence PortChain remove_chain_check
           (cloud_of chain_store) (Some pc1)); try reflexivity.
  by exists VNone.
Defined.

(** X22. In check mode with [state=present] and no current object, when the
    references resolve without an exception, every module reports
    [changed=true]. *)
Theorem check_mode_present_new_reports_change (k : sfc_kind) (module : ansible_module)
    (cloud : cloud) (o : option (gmap string value)) :
  check_mode module = true → state module = present →
  get_current k module cloud = Ret o → as_truthy o = None →
  resolved_quietly k module cloud →
  apply k module cloud = (ExitJson true ∅, []).
Proof.
  intros Hc Hs Hcur Hnone Hres.
  destruct k; destruct Hres as [ids Hids]; fold_current; unfold_main;
    rewrite Hcur, Hc; simpl; rewrite Hids; simpl;
    unfold os_sfc_flow_classifier._system_state_change,
      os_sfc_port_pair._system_state_change,
      os_sfc_port_pair_group._system_state_change,
      os_sfc_port_chain._system_state_change;
    by rewrite Hs, Hnone.
Qed.

Lemma check_mode_present_new_reports_change_witness :
  apply PortPairGroup new_group_check (cloud_of base_store) = (ExitJson true ∅, []).
Proof.
  apply (check_mode_present_new_reports_change PortPairGroup new_group_check
           (cloud_of base_store) None); try reflexivity.
  by exists (VList [VStr "pp-id-2"; VStr "pp-id-1"]).
Defined.

Lemma scalar_loop_differs module (obj ports : gmap string value) keys key cur :
  Forall (λ key, is_Some (obj !! key)) keys → key ∈ keys →
  obj !! key = Some cur →
  param module key ≠ VNone → param module key ≠ default cur (ports !! key) →
  for_in (R := bool) keys tt (λ key _,
       do cur <- getitem obj key;
       let value := default cur (ports !! key) in
       if negb (is_none (param module key)) && py_ne (param module key) value
       then Ret (Return true) else Ret (Next tt)) = Ret (Return true).
Proof.
  intros Hall Hin Hcur Hg Hd. cbv zeta.
  induction Hall as [|k keys [v Hv] _ IH]; [by apply elem_of_nil in Hin|]. simpl.
  unfold getitem in *. rewrite Hv. simpl.
  destruct (negb (is_none (param module k)) && py_ne (param module k) _) eqn:E; simpl;
    [done|].
  apply elem_of_cons in Hin as [-> | Hin]; [|by apply IH].
  rewrite Hcur in Hv. injection Hv as <-.
  by rewrite (is_none_false _ Hg), (py_ne_true _ _ Hd) in E.
Qed.

(** X23. The scalar rule of the flow classifier and port pair modules: a supplied
    field that differs from the value it is compared with (the resolved id
    when there is one, the current object's field otherwise) gives the
    decision [True], when the current object has every compared field. *)
Theorem scalar_field_differs_needs_update (module : ansible_module)
    (obj ports : gmap string value) (key : string) (cur : value) :
  obj !! key = Some cur →
  param module key ≠ VNone → param module key ≠ default cur (ports !! key) →
  (key ∈ os_sfc_flow_classifier.compare_simple →
   Forall (λ key, is_Some (obj !! key)) os_sfc_flow_classifier.compare_simple →
   os_sfc_flow_classifier._needs_update module obj ports = Ret true)
  ∧ (key ∈ os_sfc_port_pair.compare_simple →
     Forall (λ key, is_Some (obj !! key)) os_sfc_port_pair.compare_simple →
     os_sfc_port_pair._needs_update module obj ports = Ret true).
Proof.
  intros Hcur Hg Hd. split; intros Hin Hall.
  - unfold os_sfc_flow_classifier._needs_update. unfold after_loop at 1.
    pose proof (scalar_loop_differs module obj ports _ key cur Hall Hin Hcur Hg Hd) as Hl.
    cbv zeta in Hl |- *. by rewrite Hl.
  - unfold os_sfc_port_pair._needs_update. unfold after_loop at 1.
    pose proof (scalar_loop_differs module obj ports _ key cur Hall Hin Hcur Hg Hd) as Hl.
    cbv zeta in Hl |- *. by rewrite Hl.
Qed.

Lemma scalar_field_differs_needs_update_witness :
  os_sfc_flow_classifier._needs_update change_protocol tcp_classifier ∅ = Ret true.
Proof.
  refine (proj1 (scalar_field_differs_needs_update change_protocol tcp_classifier ∅
                   "protocol" (VStr "tcp") eq_refl _ _) _ _).
  - discriminate.
  - discriminate.
  - unfold os_sfc_flow_classifier.compare_simple. set_solver.
  - repeat constructor; by eexists.
Defined.

Lemma port_pair_group_same_set_witness :
  os_sfc_port_pair_group._needs_update reordered_group
    (dict [("id", VStr "ppg-id-2"); ("name", VStr "ppg2");
           ("port_pairs", VList [VStr "pp-id-1"; VStr "pp-id-2"]);
           ("port_pair_group_parameters", VNone)])
    (VList [VStr "pp-id-2"; VStr "pp-id-1"; VStr "pp-id-2"]) = Ret false.
Proof.
  apply (port_pair_group_same_set _ _ _ [VStr "pp-id-1"; VStr "pp-id-2"]);
    try reflexivity.
  intros x. set_solver.
Defined.

Lemma port_pair_group_needs_update_Permutation_witness :
  os_sfc_port_pair_group._needs_update grow_group existing_group
    (VList [VStr "pp-id-1"; VStr "pp-id-2"])
  = os_sfc_port_pair_group._needs_update grow_group existing_group
      (VList [VStr "pp-id-2"; VStr "pp-id-1"]).
Proof.
  apply port_pair_group_needs_update_Permutation. apply perm_swap.
Defined.

(** X26. A new port pair group is created with the resolved ids of its port
    pairs, in the order supplied, under [port_pairs]. *)
Theorem port_pair_group_created_with_ids (module : ansible_module) (cloud : cloud)
    (o : option (gmap string value)) (names ids : list value) :
  state module = present → check_mode module = false →
  get_current PortPairGroup module cloud = Ret o → as_truthy o = None →
  param module "port_pairs" = VList names → names ≠ [] →
  Forall2 (resolves_to (get_sfc_port_pair cloud)) names ids →
  ∃ kw, (apply PortPairGroup module cloud).2 = [Create PortPairGroup kw]
        ∧ kw !! "port_pairs" = Some (VList ids)
        ∧ ∀ key, key ≠ "port_pairs" →
            kw !! key
            = if bool_decide (key ∈ os_sfc_port_pair_group.optional_parameters)
                 && negb (is_none (param module key))
              then Some (param module key) else None.
Proof.
  intros Hs Hc Hcur Hnone Hp Hne Hres.
  assert (os_sfc_port_pair_group._port_pairs_get_ids module cloud true
          = Ret (VList ids)) as Hids.
  { unfold os_sfc_port_pair_group._port_pairs_get_ids.
    rewrite Hp. cbn [truthy]. rewrite bool_decide_false by done.
    cbn [negb py_iter res_bind]. unfold after_loop.
    by rewrite (port_pairs_loop_resolved _ _ _ ids). }
  exists (os_sfc_port_pair_group._compose_port_pair_group_args module (VList ids)).
  split; [|split].
  - fold_current. unfold_main.
    rewrite Hcur, Hs, Hc. simpl. rewrite Hids, Hnone. unfold getitem.
    split_cases; reflexivity.
  - unfold os_sfc_port_pair_group._compose_port_pair_group_args.
    apply lookup_insert_eq.
  - intros key Hk. unfold os_sfc_port_pair_group._compose_port_pair_group_args.
    rewrite lookup_insert_ne by done. by rewrite set_optional_lookup, lookup_empty.
Qed.

Lemma port_pair_group_created_with_ids_witness :
  ∃ kw, (apply PortPairGroup new_group (cloud_of base_store)).2 = [Create PortPairGroup kw]
        ∧ kw !! "port_pairs" = Some (VList [VStr "pp-id-2"; VStr "pp-id-1"])
        ∧ ∀ key, key ≠ "port_pairs" →
            kw !! key
            = if bool_decide (key ∈ os_sfc_port_pair_group.optional_parameters)
                 && negb (is_none (param new_group key))
              then Some (param new_group key) else None.
Proof.
  apply (port_pair_group_created_with_ids new_group (cloud_of base_store) None
           [VStr "pp2"; VStr "pp1"]); try reflexivity; [done|].
  repeat constructor; eexists; split; reflexivity.
Defined.

Lemma dict_field_differs_needs_update_witness :
  os_sfc_port_pair._needs_update change_correlation mpls_port_pair resolved_ports
  = Ret true.
Proof.
  refine (proj1 (proj2 (dict_field_differs_needs_update change_correlation
                          mpls_port_pair resolved_ports
                          (VDict (dict [("correlation", VStr "mpls")])))) _ eq_refl _ _).
  - repeat constructor; by eexists.
  - discriminate.
  - vm_compute. discriminate.
Defined.

Lemma dict_field_unchanged_witness :
  param new_port_pair "service_function_parameters" = VNone
  ∨ created_port_pair !! "service_function_parameters"
    = Some (param new_port_pair "service_function_parameters").
Proof.
  apply (proj1 (proj2 (dict_field_unchanged new_port_pair created_port_pair
                         resolved_ports VNone))).
  reflexivity.
Defined.

Lemma port_chain_list_compare_raises_witness :
  os_sfc_port_chain._needs_update reordered_chain pc1
    (VDict (dict [("port_pair_groups", VList [VStr "ppg-id-2"; VStr "ppg-id-1"]);
                  ("flow_classifiers", VList [VStr "fc-id-1"])]))
  = Raise (AttributeError "param").
Proof.
  apply (port_chain_list_compare_raises reordered_chain pc1 _ VNone
           (VList [VStr "ppg-id-1"; VStr "ppg-id-2"])); try reflexivity.
  - by left.
  - discriminate.
Defined.

(** X28. A create or an update that the store accepts is reported as
    [changed=true] together with the object the store returned and its id,
    under the key of the module; when that object has no id the invocation
    raises [KeyError] after the call was made. *)
Theorem accepted_mutation_reported (k : sfc_kind) (module : ansible_module) (cloud : cloud)
    (c : call) (obj : gmap string value) :
  c ∈ (apply k module cloud).2 → store_answer cloud c = Some obj →
  (apply k module cloud).1
  = match obj !! "id" with
    | Some i => ExitJson true {[ "id" := i; result_key k := VDict obj ]}
    | None => Raise (KeyError "id")
    end.
Proof.
  intros Hin Hans. revert Hin.
  destruct k; unfold_main; unfold getitem; split_cases;
    rewrite ?elem_of_nil, ?list_elem_of_singleton; try done;
    intros ->; simpl in Hans; split_cases; done.
Qed.

Lemma accepted_mutation_reported_witness :
  (apply PortPairGroup new_group (cloud_of base_store)).1
  = ExitJson true
      {[ "id" := VStr "new-id";
         "port_pair_group" :=
           VDict (dict [("id", VStr "new-id"); ("name", VStr "ppg9");
                        ("port_pairs", VList [VStr "pp-id-2"; VStr "pp-id-1"])]) ]}.
Proof.
  refine (eq_trans
            (accepted_mutation_reported PortPairGroup new_group (cloud_of base_store)
               (Create PortPairGroup
                  (dict [("name", VStr "ppg9");
                         ("port_pairs", VList [VStr "pp-id-2"; VStr "pp-id-1"])]))
               (dict [("id", VStr "new-id"); ("name", VStr "ppg9");
                      ("port_pairs", VList [VStr "pp-id-2"; VStr "pp-id-1"])]) _ _) _).
  - vm_compute. left.
  - vm_compute. reflexivity.
  - reflexivity.
Defined.

(** X29. With [state=present] outside check mode, an existing object that needs
    no update is reported unchanged, with its id and the object as the store
    holds it, and no call is issued. *)
Theorem unchanged_object_reported (k : sfc_kind) (module : ansible_module) (cloud : cloud)
    (obj : gmap string value) (i : value) :
  state module = present → check_mode module = false →
  get_current k module cloud = Ret (Some obj) → obj !! "id" = Some i →
  no_update_needed k module cloud obj →
  apply k module cloud
  = (ExitJson false {[ "id" := i; result_key k := VDict obj ]}, []).
Proof.
  intros Hs Hc Hcur Hid Hkeep.
  assert (obj ≠ ∅) as Hne by (intros ->; by rewrite lookup_empty in Hid).
  destruct k; destruct Hkeep as (ids & Hids & Hupd); fold_current; unfold_main;
    rewrite Hcur, Hs, Hc; simpl; rewrite Hids, (as_truthy_Some _ Hne); simpl;
    rewrite Hupd; simpl; unfold getitem; by rewrite Hid.
Qed.

Lemma unchanged_object_reported_witness :
  apply PortPairGroup reordered_group (cloud_of chain_store)
  = (ExitJson false
       {[ "id" := VStr "ppg-id-2";
          "port_pair_group" :=
            VDict (dict [("id", VStr "ppg-id-2"); ("name", VStr "ppg2");
                         ("port_pairs", VList [VStr "pp-id-1"; VStr "pp-id-2"]);
                         ("port_pair_group_parameters", VNone)]) ]}, []).
Proof.
  apply (unchanged_object_reported PortPairGroup reordered_group (cloud_of chain_store));
    try reflexivity.
  exists (VList [VStr "pp-id-2"; VStr "pp-id-1"]). split; reflexivity.
Defined.

Lemma resolve_all_resolved get f msg names ids :
  Forall2 (resolves_to get) names ids →
  os_sfc_port_chain.resolve_all get f msg names = Ret (Next ids).
Proof.
  intros H. unfold os_sfc_port_chain.resolve_all.
  set (body := λ (name : value) (ids : list value), _).
  change ids with ([] ++ ids). generalize (@nil value) as acc.
  induction H as [|n i names ids (obj & Hn & Hi) _ IH]; intros acc; simpl.
  - by rewrite app_nil_r.
  - unfold body at 1. rewrite Hn. simpl. unfold getitem. rewrite Hi. simpl.
    rewrite IH. by rewrite <- app_assoc.
Qed.

(** X30. A new port chain is created with the resolved ids of its port pair
    groups and flow classifiers, each list in the order supplied, next to
    the other supplied parameters as they are. *)
Theorem port_chain_created_with_ids (module : ansible_module) (cloud : cloud)
    (o : option (gmap string value)) (groups gids classifiers cids : list value) :
  state module = present → check_mode module = false →
  get_current PortChain module cloud = Ret o → as_truthy o = None →
  param module "port_pair_groups" = VList groups → groups ≠ [] →
  param module "flow_classifiers" = VList classifiers → classifiers ≠ [] →
  Forall2 (resolves_to (get_sfc_port_pair_group cloud)) groups gids →
  Forall2 (resolves_to (get_sfc_flow_classifier cloud)) classifiers cids →
  ∃ kw, (apply PortChain module cloud).2 = [Create PortChain kw]
        ∧ kw !! "port_pair_groups" = Some (VList gids)
        ∧ kw !! "flow_classifiers" = Some (VList cids)
        ∧ ∀ key, key ∈ ["name"; "chain_parameters"; "chain_id"] →
            kw !! key
            = if is_none (param module key) then None else Some (param module key).
Proof.
  intros Hs Hc Hcur Hnone Hg Hgne Hf Hfne Hgs Hfs.
  assert (os_sfc_port_chain._port_chains_get_ids module cloud true
          = Ret (VDict {[ "port_pair_groups" := VList gids;
                          "flow_classifiers" := VList cids ]})) as Hids.
  { unfold os_sfc_port_chain._port_chains_get_ids.
    rewrite Hg, Hf. cbn [truthy]. rewrite !bool_decide_false by done.
    cbn [negb py_iter res_bind]. unfold after_loop.
    rewrite (resolve_all_resolved _ _ _ _ gids) by done. cbn [res_bind].
    by rewrite (resolve_all_resolved _ _ _ _ cids). }
  assert (∃ kw, os_sfc_port_chain._compose_port_chain_args module
                  (VDict {[ "port_pair_groups" := VList gids;
                            "flow_classifiers" := VList cids ]}) = Ret kw
                ∧ kw !! "port_pair_groups" = Some (VList gids)
                ∧ kw !! "flow_classifiers" = Some (VList cids)
                ∧ ∀ key, key ∈ ["name"; "chain_parameters"; "chain_id"] →
                    kw !! key
                    = if is_none (param module key) then None else Some (param module key))
    as (kw & Hkw & Hk1 & Hk2 & Hk3).
  { unfold os_sfc_port_chain._compose_port_chain_args, after_loop,
      os_sfc_port_chain.optional_parameters. simpl. rewrite Hg, Hf. simpl.
    destruct (is_none (param module "name")) eqn:E1;
      destruct (is_none (param module "chain_parameters")) eqn:E2;
      destruct (is_none (param module "chain_id")) eqn:E3; simpl;
      (eexists; split; [reflexivity|]);
      (split; [by simplify_map_eq|]); (split; [by simplify_map_eq|]);
      intros key Hkey; repeat (apply elem_of_cons in Hkey as [-> | Hkey]);
      try (by apply elem_of_nil in Hkey); rewrite ?E1, ?E2, ?E3; by simplify_map_eq. }
  exists kw. split; [|done].
  fold_current. unfold_main. rewrite Hcur, Hs, Hc. simpl.
  rewrite Hids, Hnone. simpl. rewrite Hkw. simpl. unfold getitem. split_cases; reflexivity.
Qed.

Lemma port_chain_created_with_ids_witness :
  ∃ kw, (apply PortChain new_chain (cloud_of chain_store)).2 = [Create PortChain kw]
        ∧ kw !! "port_pair_groups" = Some (VList [VStr "ppg-id-2"; VStr "ppg-id-1"])
        ∧ kw !! "flow_classifiers" = Some (VList [VStr "fc-id-1"])
        ∧ ∀ key, key ∈ ["name"; "chain_parameters"; "chain_id"] →
            kw !! key
            = if is_none (param new_chain key) then None else Some (param new_chain key).
Proof.
  apply (port_chain_created_with_ids new_chain (cloud_of chain_store) None
           [VStr "ppg2"; VStr "ppg1"] _ [VStr "fc1"]); try reflexivity; try done;
    repeat constructor; eexists; split; reflexivity.
Defined.
